(** * Rendezvous server and hole-punch client: a shallow embedding

    The development follows [server.py] (the signaling server with its
    shared [REGISTRY]) and [client.py] (the peer client: probe burst and
    UDP receive loop).  Python values that travel through [json.loads] are
    represented by the type [json]; the shared dictionary is a [gmap]; a
    socket is identified by a natural number; effects on sockets are kept
    in an explicit server state that every operation threads through. *)

From Stdlib Require Import ZArith NArith QArith.
From Stdlib.Strings Require Import Byte.
From stdpp Require Import base gmap sets list strings.

Local Open Scope string_scope.
Local Open Scope Z_scope.
Local Open Scope list_scope.

(** ** Python values produced by [json.loads]

    Numbers with a fraction or an exponent (Python [float]) are outside the
    modelled fragment; every other JSON value is covered.  A [JObj] is the
    dictionary already built by the parser, looked up by first match. *)

#[warnings="-register-all"]
Inductive json : Type :=
  | JNull
  | JBool (b : bool)
  | JInt (z : Z)
  | JStr (s : string)
  | JArr (items : list json)
  | JObj (fields : list (string * json)).

(** Python truth value, as tested by [not x] and [if x:]. *)
Definition truthy (v : json) : bool :=
  match v with
  | JNull => false
  | JBool b => b
  | JInt z => negb (Z.eqb z 0)
  | JStr s => negb (String.eqb s "")
  | JArr items => match items with [] => false | _ => true end
  | JObj fields => match fields with [] => false | _ => true end
  end.

(** [isinstance(v, int)]: [bool] is a subclass of [int] in Python. *)
Definition isinstance_int (v : json) : bool :=
  match v with
  | JInt _ | JBool _ => true
  | _ => false
  end.

(** [v == "literal"] for a string literal. *)
Definition str_eq (v : json) (lit : string) : bool :=
  match v with
  | JStr s => String.eqb s lit
  | _ => false
  end.

(** [d.get(key)] on the association list of a parsed object. *)
Fixpoint dict_get (key : string) (fields : list (string * json)) : json :=
  match fields with
  | [] => JNull
  | (k, v) :: rest => if String.eqb k key then v else dict_get key rest
  end.

(** Dictionary keys.  Python hashes [True] and [1] alike (and compares them
    equal), strings and numbers never collide, lists and dicts are
    unhashable and make every dictionary operation raise [TypeError]. *)
Inductive hashable : Type :=
  | HNone
  | HInt (z : Z)
  | HStr (s : string).

#[global] Instance hashable_eq_dec : EqDecision hashable.
Proof. solve_decision. Defined.

Definition hashable_to_sum (k : hashable) : unit + (Z + string) :=
  match k with
  | HNone => inl tt
  | HInt z => inr (inl z)
  | HStr s => inr (inr s)
  end.

Definition hashable_of_sum (x : unit + (Z + string)) : hashable :=
  match x with
  | inl _ => HNone
  | inr (inl z) => HInt z
  | inr (inr s) => HStr s
  end.

#[global] Instance hashable_countable : Countable hashable.
Proof.
  apply (inj_countable' hashable_to_sum hashable_of_sum).
  by intros [].
Defined.

Definition py_key (v : json) : option hashable :=
  match v with
  | JNull => Some HNone
  | JBool b => Some (HInt (if b then 1 else 0))
  | JInt z => Some (HInt z)
  | JStr s => Some (HStr s)
  | JArr _ | JObj _ => None
  end.

(** ** Server state *)

(** A socket object; [addr[0]] is a string. *)
Definition conn := nat.

(** The value stored under a username:
    [{"conn": socket, "ip": str, "udp_port": int}]. *)
Record Registration : Type := mkRegistration {
  reg_conn : conn;
  reg_ip : string;
  reg_udp_port : json
}.

(** The module-level [REGISTRY], the sockets the server has closed, and the
    records handed to [sendall] on a socket that was still open, oldest
    first. *)
Record server : Type := mkServer {
  REGISTRY : gmap hashable Registration;
  closed : gset conn;
  sent : list (conn * json)
}.

Definition set_REGISTRY (R : gmap hashable Registration) (s : server) : server :=
  mkServer R (closed s) (sent s).

Definition initial_server : server := mkServer ∅ ∅ [].

(** [socket.close()]: closing twice is harmless. *)
Definition close_conn (c : conn) (s : server) : server :=
  mkServer (REGISTRY s) ({[c]} ∪ closed s) (sent s).

(** [send_json]: [sendall] on a closed socket raises [OSError], which the
    function swallows; nothing reaches the wire then. *)
Definition send_json (c : conn) (obj : json) (s : server) : server :=
  if decide (c ∈ closed s) then s
  else mkServer (REGISTRY s) (closed s) (sent s ++ [(c, obj)]).

Definition error_record (reason : string) : json :=
  JObj [("action", JStr "error"); ("error", JStr reason)].

Definition registered_record (username : json) : json :=
  JObj [("action", JStr "registered"); ("username", username)].

Definition peer_record (peer_username : json) (peer_ip : string) (peer_port : json) : json :=
  JObj [("action", JStr "peer"); ("peer_username", peer_username);
        ("peer_ip", JStr peer_ip); ("peer_port", peer_port)].

(** [handle_disconnect(username)].  With an unhashable [username] the test
    [username in REGISTRY] raises and nothing has been done. *)
Definition handle_disconnect (username : json) (s : server) : server :=
  match py_key username with
  | None => s
  | Some k =>
      match REGISTRY s !! k with
      | Some r => set_REGISTRY (delete k (REGISTRY s)) (close_conn (reg_conn r) s)
      | None => s
      end
  end.

(** ** One request record *)

Inductive exn : Type :=
  AttributeError | TypeError | ValueError | UnicodeDecodeError | OSError | RecursionError.

(** What the inner loop does next: go on with the following line, or leave
    both loops because an exception reached [except Exception]. *)
Inductive flow : Type :=
  | Next
  | Raised (e : exn).

(** The two statements inside [with LOCK:] of the register branch, in
    program order. *)
Definition close_previous (k : hashable) (s : server) : server :=
  match REGISTRY s !! k with
  | Some r => close_conn (reg_conn r) s
  | None => s
  end.

Definition store_registration (k : hashable) (r : Registration) (s : server) : server :=
  set_REGISTRY (<[k := r]> (REGISTRY s)) s.

Definition register_locked (k : hashable) (c : conn) (ip : string) (udp_port : json)
    (s : server) : server :=
  store_registration k (mkRegistration c ip udp_port) (close_previous k s).

(** The two reads inside [with LOCK:] of the connect branch: both come from
    the same registry value. *)
Definition pair_snapshot (R : gmap hashable Registration) (ku kt : hashable)
    : option Registration * option Registration :=
  (R !! ku, R !! kt).

(** The part of the connect branch after the lock is released; it uses the
    snapshot only. *)
Definition connect_notify (c : conn) (username target : json)
    (snap : option Registration * option Registration) (s : server) : flow * server :=
  match snap with
  | (_, None) => (Next, send_json c (error_record "target_not_online") s)
  | (None, Some _) => (Raised TypeError, s)
  | (Some me, Some other) =>
      (Next,
       send_json (reg_conn other) (peer_record username (reg_ip me) (reg_udp_port me))
         (send_json (reg_conn me) (peer_record target (reg_ip other) (reg_udp_port other)) s))
  end.

(** The dispatch on [msg] (lines 66 to 127 of [server.py]); [username] is
    the handler's local variable, returned with its new value. *)
Definition handle_msg (c : conn) (ip : string) (username : json) (msg : json) (s : server)
    : flow * json * server :=
  match msg with
  | JObj fields =>
      let act := dict_get "action" fields in
      if str_eq act "register" then
        let username := dict_get "username" fields in
        let udp_port := dict_get "udp_port" fields in
        if negb (truthy username) || negb (isinstance_int udp_port) then
          (Next, username, send_json c (error_record "missing_fields") s)
        else
          match py_key username with
          | None => (Raised TypeError, username, s)
          | Some k =>
              (Next, username,
               send_json c (registered_record username) (register_locked k c ip udp_port s))
          end
      else if str_eq act "connect" then
        if negb (truthy username) then
          (Next, username, send_json c (error_record "not_registered") s)
        else
          let target := dict_get "target" fields in
          if negb (truthy target) then
            (Next, username, send_json c (error_record "missing_target") s)
          else
            match py_key username, py_key target with
            | Some ku, Some kt =>
                let '(f, s') :=
                  connect_notify c username target (pair_snapshot (REGISTRY s) ku kt) s in
                (f, username, s')
            | _, _ => (Raised TypeError, username, s)
            end
      else
        (Next, username, send_json c (error_record "unknown_action") s)
  | _ => (Raised AttributeError, username, s)
  end.

(** The outcome of [json.loads(line.decode())]. *)
Inductive decoded : Type :=
  | Parsed (msg : json)
  | JSONDecodeError
  | DecodeRaised (e : exn).

(** The body of the inner loop for one non-blank line: only
    [json.JSONDecodeError] is caught next to the decoding. *)
Definition handle_record (c : conn) (ip : string) (username : json) (d : decoded) (s : server)
    : flow * json * server :=
  match d with
  | Parsed msg => handle_msg c ip username msg s
  | JSONDecodeError => (Next, username, send_json c (error_record "bad_json") s)
  | DecodeRaised e => (Raised e, username, s)
  end.

(** The [finally] block of [handle_client]. *)
Definition handler_exit (c : conn) (username : json) (s : server) : server :=
  if truthy username then handle_disconnect username s else close_conn c s.

(** ** Framing of the byte stream *)

Definition byte_val (b : byte) : N := Byte.to_N b.

Definition in_range (lo hi : N) (b : byte) : bool :=
  ((lo <=? byte_val b) && (byte_val b <=? hi))%N.

Definition is_cont (b : byte) : bool := in_range 128 191 b.

(** [bytes.decode()] with the default strict handler succeeds exactly on
    well-formed UTF-8: no stray continuation byte, no overlong form, no
    surrogate, nothing above U+10FFFF, no truncated sequence. *)
Fixpoint utf8_valid (bs : list byte) : bool :=
  match bs with
  | [] => true
  | b0 :: rest =>
      if (byte_val b0 <=? 127)%N then utf8_valid rest
      else if in_range 194 223 b0 then
        match rest with
        | b1 :: rest1 => is_cont b1 && utf8_valid rest1
        | _ => false
        end
      else if in_range 224 239 b0 then
        match rest with
        | b1 :: b2 :: rest2 =>
            (if (byte_val b0 =? 224)%N then in_range 160 191 b1
             else if (byte_val b0 =? 237)%N then in_range 128 159 b1
             else is_cont b1)
            && is_cont b2 && utf8_valid rest2
        | _ => false
        end
      else if in_range 240 244 b0 then
        match rest with
        | b1 :: b2 :: b3 :: rest3 =>
            (if (byte_val b0 =? 240)%N then in_range 144 191 b1
             else if (byte_val b0 =? 244)%N then in_range 128 143 b1
             else is_cont b1)
            && is_cont b2 && is_cont b3 && utf8_valid rest3
        | _ => false
        end
      else false
  end.

(** The bytes removed by [bytes.strip()]: space, tab, newline, vertical
    tab, form feed, carriage return. *)
Definition is_space (b : byte) : bool :=
  ((byte_val b =? 32) || in_range 9 13 b)%N.

Definition is_newline (b : byte) : bool := (byte_val b =? 10)%N.

(** [buf.split(b"\n", 1)] when [b"\n" in buf], [None] otherwise. *)
Fixpoint split_newline (buf : list byte) : option (list byte * list byte) :=
  match buf with
  | [] => None
  | b :: rest =>
      if is_newline b then Some ([], rest)
      else
        match split_newline rest with
        | Some (line, rest') => Some (b :: line, rest')
        | None => None
        end
  end.

Section Framing.

(** [json.loads] on an already decoded text: the value, or
    [json.JSONDecodeError], the one exception that the handler catches
    next to the call, or another exception that [json.loads] raises
    ([ValueError] for an integer literal longer than the digit limit,
    [RecursionError] for too deep a nesting). *)
Variable json_loads : list byte -> decoded.

Definition decode_line (line : list byte) : decoded :=
  if utf8_valid line then json_loads line
  else DecodeRaised UnicodeDecodeError.

(** The inner [while b"\n" in buf] loop.  Every round removes at least
    the newline, so [length buf] rounds are enough. *)
Fixpoint process_lines (fuel : nat) (c : conn) (ip : string) (username : json)
    (buf : list byte) (s : server) : flow * json * list byte * server :=
  match fuel with
  | O => (Next, username, buf, s)
  | S fuel' =>
      match split_newline buf with
      | None => (Next, username, buf, s)
      | Some (line, rest) =>
          if forallb is_space line then process_lines fuel' c ip username rest s
          else
            match handle_record c ip username (decode_line line) s with
            | (Next, username', s') => process_lines fuel' c ip username' rest s'
            | (Raised e, username', s') => (Raised e, username', rest, s')
            end
      end
  end.

Definition process_buffer (c : conn) (ip : string) (username : json)
    (buf : list byte) (s : server) : flow * json * list byte * server :=
  process_lines (length buf) c ip username buf s.

(** What [conn.recv(4096)] gives: data (empty when the peer closed the
    stream), [socket.timeout], or another exception. *)
Inductive recv_result : Type :=
  | RecvData (chunk : list byte)
  | RecvTimeout
  | RecvFailed.

Inductive status : Type := Running | Finished.

(** One round of the outer [while True] loop, with the [finally] block
    when the handler leaves it. *)
Definition handle_recv (c : conn) (ip : string) (r : recv_result)
    (username : json) (buf : list byte) (s : server)
    : status * json * list byte * server :=
  let after_lines buf :=
    match process_buffer c ip username buf s with
    | (Next, username', buf', s') => (Running, username', buf', s')
    | (Raised _, username', buf', s') => (Finished, username', buf', handler_exit c username' s')
    end in
  match r with
  | RecvData [] => (Finished, username, buf, handler_exit c username s)
  | RecvData chunk => after_lines (buf ++ chunk)%list
  | RecvTimeout => after_lines buf
  | RecvFailed => (Finished, username, buf, handler_exit c username s)
  end.

(** [handle_client(conn, addr)] run against the results of its successive
    [recv] calls; [Running] when they are used up and the handler waits. *)
Fixpoint handle_client_from (c : conn) (ip : string) (rs : list recv_result)
    (username : json) (buf : list byte) (s : server)
    : status * json * list byte * server :=
  match rs with
  | [] => (Running, username, buf, s)
  | r :: rs' =>
      match handle_recv c ip r username buf s with
      | (Running, username', buf', s') => handle_client_from c ip rs' username' buf' s'
      | finished => finished
      end
  end.

Definition handle_client (c : conn) (ip : string) (rs : list recv_result) (s : server)
    : status * json * list byte * server :=
  handle_client_from c ip rs JNull [] s.

End Framing.

(** ** Several connections on one server

    Each accepted connection runs its own handler; the handlers share the
    server state.  A schedule lists, in the order in which they take
    effect, the accepted connections, the decoded request records and the
    stream closures. *)

Record system : Type := mkSystem {
  srv : server;
  handlers : gmap conn (string * json)
}.

Inductive op : Type :=
  | Accept (c : conn) (ip : string)
  | Deliver (c : conn) (d : decoded)
  | Hangup (c : conn).

Definition initial_system : system := mkSystem initial_server ∅.

Definition step (sys : system) (o : op) : system :=
  match o with
  | Accept c ip => mkSystem (srv sys) (<[c := (ip, JNull)]> (handlers sys))
  | Deliver c d =>
      match handlers sys !! c with
      | None => sys
      | Some (ip, username) =>
          match handle_record c ip username d (srv sys) with
          | (Next, username', s') => mkSystem s' (<[c := (ip, username')]> (handlers sys))
          | (Raised _, username', s') =>
              mkSystem (handler_exit c username' s') (delete c (handlers sys))
          end
      end
  | Hangup c =>
      match handlers sys !! c with
      | None => sys
      | Some (_, username) =>
          mkSystem (handler_exit c username (srv sys)) (delete c (handlers sys))
      end
  end.

Definition run (ops : list op) (sys : system) : system := fold_left step ops sys.

(** The request records of the wire protocol, as [json.loads] returns them. *)
Definition register_request (username : json) (udp_port : json) : json :=
  JObj [("action", JStr "register"); ("username", username); ("udp_port", udp_port)].

Definition connect_request (target : json) : json :=
  JObj [("action", JStr "connect"); ("target", target)].

(** ** The peer client ([client.py]) *)

Definition PUNCH_COUNT : nat := 12.

(** Seconds. *)
Definition PUNCH_INTERVAL : Q := 1 # 10.

(** The fields of a [PeerClient] that the signaling reader writes and the
    probe burst reads.  [peer_ip] and [peer_username] hold whatever
    [msg.get] returned; [peer_port] is [None] or the result of [int(...)]. *)
Record PeerClient : Type := mkPeerClient {
  self_username : string;
  peer_ip : json;
  peer_port : json;
  peer_username : json
}.

Definition new_client (name : string) : PeerClient :=
  mkPeerClient name JNull JNull JNull.

(** What a thread does on the UDP socket and the clock. *)
Inductive udp_event : Type :=
  | SendTo (payload : json) (ip : json) (port : json)
  | Sleep (seconds : Q).

(** A thread handed to [threading.Thread(...).start()]. *)
Inductive thread : Type := PunchThread.

Definition hello_probe (from : string) (i : nat) : json :=
  JObj [("type", JStr "hello"); ("from", JStr from); ("seq", JInt (Z.of_nat i))].

(** One round of the [for i in range(PUNCH_COUNT)] loop of [punch]; the
    closure reads the fields of [self] anew in every round.  An exception
    of [sendto] is printed and the loop goes on. *)
Definition punch_round (self : PeerClient) (i : nat) : list udp_event :=
  [SendTo (hello_probe (self_username self) i) (peer_ip self) (peer_port self);
   Sleep PUNCH_INTERVAL].

(** The body of the burst thread; [view i] is the client object as round
    [i] finds it. *)
Definition punch (view : nat -> PeerClient) : list udp_event :=
  flat_map (fun i => punch_round (view i) i) (seq 0 PUNCH_COUNT).

(** [start_hole_punch]: what the calling thread itself does on the socket
    and the clock, and the threads it starts. *)
Definition start_hole_punch (self : PeerClient) : list udp_event * list thread :=
  if negb (truthy (peer_ip self) && truthy (peer_port self)) then ([], [])
  else ([], [PunchThread]).

Section Signaling.

(** [int(s)] on a string; [None] stands for [ValueError]. *)
Variable int_of_str : string -> option Z.

Definition py_int (v : json) : exn + Z :=
  match v with
  | JInt z => inr z
  | JBool b => inr (if b then 1 else 0)%Z
  | JStr s =>
      match int_of_str s with
      | Some z => inr z
      | None => inl ValueError
      end
  | JNull | JArr _ | JObj _ => inl TypeError
  end.

(** [handle_signal(msg)]; printing is left out. *)
Definition handle_signal (self : PeerClient) (msg : json)
    : flow * PeerClient * (list udp_event * list thread) :=
  match msg with
  | JObj fields =>
      let act := dict_get "action" fields in
      if str_eq act "registered" then (Next, self, ([], []))
      else if str_eq act "error" then (Next, self, ([], []))
      else if str_eq act "peer" then
        let self1 :=
          mkPeerClient (self_username self) (dict_get "peer_ip" fields) (peer_port self)
            (dict_get "peer_username" fields) in
        match py_int (dict_get "peer_port" fields) with
        | inl e => (Raised e, self1, ([], []))
        | inr port =>
            let self2 :=
              mkPeerClient (self_username self1) (peer_ip self1) (JInt port)
                (peer_username self1) in
            (Next, self2, start_hole_punch self2)
        end
      else (Next, self, ([], []))
  | _ => (Raised AttributeError, self, ([], []))
  end.

End Signaling.

(** *** The UDP receive loop *)

Definition address : Type := string * Z.

(** What [sock.recvfrom(65535)] gives. *)
Inductive udp_recv : Type :=
  | UdpData (data : list byte) (addr : address)
  | UdpTimeout
  | UdpFailed.

(** What the loop shows to the user of the client. *)
Inductive shown : Type :=
  | ShowChat (f t text : json)
  | ShowUnknown (addr : address) (msg : json)
  | ShowNonJson (addr : address) (prefix : list byte)
  | ShowRecvError.

(** How a round of the loop ends: the next round, the [break], or an
    exception that nothing catches and that ends the thread. *)
Inductive round_end : Type :=
  | Continue
  | Break
  | Uncaught (e : exn).

(** The part of a round after [json.loads] has returned [msg]. *)
Definition classify (addr : address) (msg : json) : round_end * list shown :=
  match msg with
  | JObj fields =>
      let mtype := dict_get "type" fields in
      if str_eq mtype "chat" then
        (Continue, [ShowChat (dict_get "from" fields) (dict_get "to" fields)
                      (dict_get "msg" fields)])
      else if str_eq mtype "hello" then (Continue, [])
      else (Continue, [ShowUnknown addr msg])
  | _ => (Uncaught AttributeError, [])
  end.

Section Receiver.

(** [json.loads(data.decode(errors="ignore"))]: the value,
    [json.JSONDecodeError], or another exception of [json.loads]
    ([ValueError], [RecursionError]), which the loop does not catch. *)
Variable loads_lossy : list byte -> decoded.

Definition udp_receiver_round (r : udp_recv) : round_end * list shown :=
  match r with
  | UdpTimeout => (Continue, [])
  | UdpFailed => (Break, [ShowRecvError])
  | UdpData data addr =>
      match loads_lossy data with
      | JSONDecodeError => (Continue, [ShowNonJson addr (take 60 data)])
      | Parsed msg => classify addr msg
      | DecodeRaised e => (Uncaught e, [])
      end
  end.

(** [udp_receiver] run against the results of its successive [recvfrom]
    calls (the stop event stays unset): what it showed, how it ended, and
    the receptions it never looked at. *)
Fixpoint udp_receiver (rs : list udp_recv) : round_end * list shown * list udp_recv :=
  match rs with
  | [] => (Continue, [], [])
  | r :: rs' =>
      match udp_receiver_round r with
      | (Continue, out) =>
          let '(e, out', unread) := udp_receiver rs' in (e, (out ++ out')%list, unread)
      | (e, out) => (e, out, rs')
      end
  end.

End Receiver.

#[global] Instance byte_eq_decision : EqDecision byte := Byte.byte_eq_dec.

(** A parser known by finitely many of its results: the listed texts with
    the value [json.loads] returns on each, everything else rejected with
    [json.JSONDecodeError]. *)
Definition loads_table (table : list (list byte * json)) (text : list byte) : decoded :=
  match List.find (fun entry => bool_decide (fst entry = text)) table with
  | Some entry => Parsed (snd entry)
  | None => JSONDecodeError
  end.

(** The Registrations that the registry holds for one identity. *)
Definition registrations_of (k : hashable) (s : server) : list Registration :=
  omap (fun entry => if decide (fst entry = k) then Some (snd entry) else None)
       (map_to_list (REGISTRY s)).

(** A record that announces a peer. *)
Definition is_peer_notification (obj : json) : bool :=
  match obj with
  | JObj fields => str_eq (dict_get "action" fields) "peer"
  | _ => false
  end.

(** The datagrams of a trace, without the pauses. *)
Definition probes (evs : list udp_event) : list (json * json * json) :=
  omap (fun ev => match ev with
                  | SendTo payload ip port => Some (payload, ip, port)
                  | Sleep _ => None
                  end) evs.

(** *** Sending on the two channels *)



(** The dictionary that [send_chat] serializes; [ts] is the clock reading
    of [time.time()]. *)
Record chat_packet : Type := mkChat {
  chat_from : string;
  chat_to : json;
  chat_ts : Q;
  chat_msg : string
}.

(** What [send_chat] does: the message that no peer is known, or one call
    of [sendto] (whose exception, if any, is printed). *)
Inductive chat_event : Type :=
  | ChatNoPeer
  | ChatSendTo (packet : chat_packet) (ip : json) (port : json).

Definition send_chat (self : PeerClient) (now : Q) (text : string) : chat_event :=
  if negb (truthy (peer_ip self) && truthy (peer_port self)) then ChatNoPeer
  else
    ChatSendTo (mkChat (self_username self) (peer_username self) now text)
      (peer_ip self) (peer_port self).

(** *** The reader of the signaling stream *)

Section Reader.

Variable json_loads : list byte -> decoded.
Variable int_of_str : string -> option Z.

(** The inner [while b"\n" in buf] loop of [signaling_reader]: a line that
    is no JSON text is skipped without a word; any other exception, also
    one of [handle_signal], is caught nowhere.  The threads started on the
    way are collected. *)
Fixpoint reader_lines (fuel : nat) (self : PeerClient) (buf : list byte)
    : flow * PeerClient * list byte * list thread :=
  match fuel with
  | O => (Next, self, buf, [])
  | S fuel' =>
      match split_newline buf with
      | None => (Next, self, buf, [])
      | Some (line, rest) =>
          if forallb is_space line then reader_lines fuel' self rest
          else
            match decode_line json_loads line with
            | JSONDecodeError => reader_lines fuel' self rest
            | DecodeRaised e => (Raised e, self, rest, [])
            | Parsed msg =>
                match handle_signal int_of_str self msg with
                | (Next, self', (_, started)) =>
                    let '(f, self'', buf', started') := reader_lines fuel' self' rest in
                    (f, self'', buf', started ++ started')
                | (Raised e, self', (_, started)) => (Raised e, self', rest, started)
                end
            end
      end
  end.

(** One round of the outer loop of [signaling_reader], entered with the
    stop event unset.  The boolean tells whether the round has set the stop
    event. *)
Definition signaling_reader_round (r : recv_result) (self : PeerClient) (buf : list byte)
    : round_end * bool * PeerClient * list byte * list thread :=
  match r with
  | RecvData [] => (Break, true, self, buf, [])
  | RecvData chunk =>
      match reader_lines (length (buf ++ chunk)) self (buf ++ chunk) with
      | (Next, self', buf', started) => (Continue, false, self', buf', started)
      | (Raised e, self', buf', started) => (Uncaught e, false, self', buf', started)
      end
  | RecvTimeout => (Continue, false, self, buf, [])
  | RecvFailed => (Break, true, self, buf, [])
  end.

End Reader.

(** ** Notions used in the statements below *)

(** A usable identity as key, and a port that passed the register check. *)
Definition registry_ok (R : gmap hashable Registration) : Prop :=
  forall k r, R !! k = Some r ->
    k <> HNone /\ k <> HInt 0 /\ k <> HStr "" /\ isinstance_int (reg_udp_port r) = true.

(** The three shapes of records that the server writes. *)
Definition wire_ok (m : json) : Prop :=
  (exists reason, m = error_record reason)
  \/ (exists username, m = registered_record username)
  \/ (exists peer ip port, m = peer_record peer ip port /\ isinstance_int port = true).


(** A server state with a sound Registry that has written only records of
    the three shapes. *)
Definition server_ok (s : server) : Prop :=
  registry_ok (REGISTRY s) /\ Forall (fun m => wire_ok (snd m)) (sent s).

(** * Properties *)

(** ** Sending and closing *)

Lemma send_json_open (c : conn) (obj : json) (s : server) :
  c ∉ closed s ->
  send_json c obj s = mkServer (REGISTRY s) (closed s) (sent s ++ [(c, obj)]).
Proof. intros Hc. unfold send_json. by rewrite decide_False. Qed.

Lemma send_json_closed (c : conn) (obj : json) (s : server) :
  c ∈ closed s -> send_json c obj s = s.
Proof. intros Hc. unfold send_json. by rewrite decide_True. Qed.

Lemma REGISTRY_send_json (c : conn) (obj : json) (s : server) :
  REGISTRY (send_json c obj s) = REGISTRY s.
Proof. unfold send_json. by case_decide. Qed.

Lemma closed_send_json (c : conn) (obj : json) (s : server) :
  closed (send_json c obj s) = closed s.
Proof. unfold send_json. by case_decide. Qed.

Lemma sent_send_json (c : conn) (obj : json) (s : server) :
  sent (send_json c obj s) = sent s
  \/ sent (send_json c obj s) = sent s ++ [(c, obj)].
Proof. unfold send_json. case_decide; auto. Qed.

Lemma server_eta (s : server) : mkServer (REGISTRY s) (closed s) (sent s) = s.
Proof. by destruct s. Qed.

(** ** Leaving the handler *)

Lemma handle_disconnect_present (username : json) (k : hashable) (r : Registration)
    (s : server) :
  py_key username = Some k -> REGISTRY s !! k = Some r ->
  handle_disconnect username s
  = mkServer (delete k (REGISTRY s)) ({[reg_conn r]} ∪ closed s) (sent s).
Proof. intros Hk Hr. unfold handle_disconnect. by rewrite Hk, Hr. Qed.

Lemma handle_disconnect_absent (username : json) (k : hashable) (s : server) :
  py_key username = Some k -> REGISTRY s !! k = None ->
  handle_disconnect username s = s.
Proof. intros Hk Hr. unfold handle_disconnect. by rewrite Hk, Hr. Qed.

(** The cleanup goes by name alone: when a handler leaves with a username
    in its local variable, the Registry entry under that username is removed
    whichever connection it points at, the connection stored in it is
    closed, every other entry stays, and nothing is sent. *)
Theorem handler_exit_removes_entry (c : conn) (username : json) (k : hashable) (s : server) :
  truthy username = true ->
  py_key username = Some k ->
  REGISTRY (handler_exit c username s) !! k = None
  /\ (forall k', k' <> k -> REGISTRY (handler_exit c username s) !! k' = REGISTRY s !! k')
  /\ (forall r, REGISTRY s !! k = Some r -> reg_conn r ∈ closed (handler_exit c username s))
  /\ sent (handler_exit c username s) = sent s.
Proof.
  intros Ht Hk. unfold handler_exit. rewrite Ht.
  destruct (REGISTRY s !! k) as [r|] eqn:Hr.
  - rewrite (handle_disconnect_present _ _ _ _ Hk Hr). simpl.
    split; [apply lookup_delete_eq|].
    split; [intros k' Hne; apply lookup_delete_ne; congruence|].
    split; [|done].
    intros r' [= <-]. set_solver.
  - rewrite (handle_disconnect_absent _ _ _ Hk Hr).
    split; [done|]. split; [done|]. split; [|done].
    intros r' Hr'. congruence.
Qed.

Lemma handler_exit_removes_entry_witness :
  let s := srv (run [Accept 1%nat "1.2.3.4";
                     Deliver 1%nat (Parsed (register_request (JStr "alice") (JInt 40000)));
                     Accept 2%nat "5.6.7.8";
                     Deliver 2%nat (Parsed (register_request (JStr "alice") (JInt 50000)))]
                    initial_system) in
  (truthy (JStr "alice") = true
   /\ REGISTRY s !! HStr "alice" = Some (mkRegistration 2%nat "5.6.7.8" (JInt 50000)))
  /\ REGISTRY (handler_exit 1%nat (JStr "alice") s) !! HStr "alice" = None
  /\ 2%nat ∈ closed (handler_exit 1%nat (JStr "alice") s).
Proof.
  cbv zeta.
  set (s := srv (run _ initial_system)).
  assert (Hnew : REGISTRY s !! HStr "alice"
                 = Some (mkRegistration 2%nat "5.6.7.8" (JInt 50000))) by (by vm_compute).
  split; [done|].
  destruct (handler_exit_removes_entry 1%nat (JStr "alice") (HStr "alice") s eq_refl eq_refl)
    as (Hgone & _ & Hclosed & _).
  split; [exact Hgone|]. exact (Hclosed _ Hnew).
Defined.

(** C1 at the schedule where alice registers on connection 1 and then on
    connection 2, which the register branch installs in place of the first
    and whose predecessor it closes: when the handler of connection 1
    leaves afterwards, its cleanup removes the entry that points at
    connection 2 and closes connection 2. *)
Lemma late_cleanup_removes_new_entry :
  let before :=
    run [Accept 1%nat "1.2.3.4";
         Deliver 1%nat (Parsed (register_request (JStr "alice") (JInt 40000)));
         Accept 2%nat "5.6.7.8";
         Deliver 2%nat (Parsed (register_request (JStr "alice") (JInt 50000)))]
        initial_system in
  let after := step before (Hangup 1%nat) in
  REGISTRY (srv before) !! HStr "alice" = Some (mkRegistration 2%nat "5.6.7.8" (JInt 50000))
  /\ handlers before !! 1%nat = Some ("1.2.3.4", JStr "alice")
  /\ REGISTRY (srv after) !! HStr "alice" = None
  /\ 2%nat ∈ closed (srv after).
Proof.
  cbv zeta. split; [by vm_compute|]. split; [by vm_compute|]. split; [by vm_compute|].
  apply (bool_decide_unpack _). by vm_compute.
Qed.

(** ** Pairing *)

Lemma connect_branch (c : conn) (ip : string) (username : json)
    (fields : list (string * json)) (s : server) :
  dict_get "action" fields = JStr "connect" ->
  handle_msg c ip username (JObj fields) s
  = if negb (truthy username) then
      (Next, username, send_json c (error_record "not_registered") s)
    else if negb (truthy (dict_get "target" fields)) then
      (Next, username, send_json c (error_record "missing_target") s)
    else
      match py_key username, py_key (dict_get "target" fields) with
      | Some ku, Some kt =>
          let '(f, s') :=
            connect_notify c username (dict_get "target" fields)
              (pair_snapshot (REGISTRY s) ku kt) s in
          (f, username, s')
      | _, _ => (Raised TypeError, username, s)
      end.
Proof. intros Ha. unfold handle_msg. by rewrite Ha. Qed.

Lemma connect_notify_both (c : conn) (username target : json) (me other : Registration)
    (s : server) :
  reg_conn me ∉ closed s -> reg_conn other ∉ closed s ->
  connect_notify c username target (Some me, Some other) s
  = (Next,
     mkServer (REGISTRY s) (closed s)
       (sent s ++ [(reg_conn me, peer_record target (reg_ip other) (reg_udp_port other));
                   (reg_conn other, peer_record username (reg_ip me) (reg_udp_port me))])).
Proof.
  intros Hme Hother. unfold connect_notify.
  rewrite (send_json_open (reg_conn me)) by done.
  rewrite send_json_open by done. simpl. by rewrite <- app_assoc.
Qed.

(** C2: a connect request of a requester registered on this connection,
    naming a registered target, both connections open, puts exactly two
    peer records on the wire: to the requester the target's name, observed
    address and reported port, to the target the requester's.  Both are
    computed from the one pair of entries read under the lock: whatever the
    server state has become when the records are sent, they are the same. *)
Theorem connect_notifies_both (c : conn) (ip : string) (username target : json)
    (ku kt : hashable) (me other : Registration) (fields : list (string * json))
    (s : server) :
  dict_get "action" fields = JStr "connect" ->
  dict_get "target" fields = target ->
  truthy username = true -> truthy target = true ->
  py_key username = Some ku -> py_key target = Some kt ->
  REGISTRY s !! ku = Some me -> REGISTRY s !! kt = Some other ->
  reg_conn me = c ->
  c ∉ closed s -> reg_conn other ∉ closed s ->
  handle_msg c ip username (JObj fields) s
  = (Next, username,
     mkServer (REGISTRY s) (closed s)
       (sent s ++ [(c, peer_record target (reg_ip other) (reg_udp_port other));
                   (reg_conn other, peer_record username (reg_ip me) (reg_udp_port me))]))
  /\ (forall s' : server,
        c ∉ closed s' -> reg_conn other ∉ closed s' ->
        connect_notify c username target (pair_snapshot (REGISTRY s) ku kt) s'
        = (Next,
           mkServer (REGISTRY s') (closed s')
             (sent s' ++ [(c, peer_record target (reg_ip other) (reg_udp_port other));
                          (reg_conn other,
                           peer_record username (reg_ip me) (reg_udp_port me))]))).
Proof.
  intros Ha Ht Hu Htt Hku Hkt Hme Hother Hc Hopen Hopen'.
  assert (Hsnap : forall s' : server,
            c ∉ closed s' -> reg_conn other ∉ closed s' ->
            connect_notify c username target (pair_snapshot (REGISTRY s) ku kt) s'
            = (Next,
               mkServer (REGISTRY s') (closed s')
                 (sent s' ++ [(c, peer_record target (reg_ip other) (reg_udp_port other));
                              (reg_conn other,
                               peer_record username (reg_ip me) (reg_udp_port me))]))).
  { intros s' H1 H2. unfold pair_snapshot. rewrite Hme, Hother.
    rewrite connect_notify_both by (by rewrite ?Hc). by rewrite Hc. }
  split; [|exact Hsnap].
  rewrite (connect_branch _ _ _ _ _ Ha), Ht, Hu, Htt, Hku, Hkt. cbn [negb].
  by rewrite (Hsnap s Hopen Hopen').
Qed.

(** The scenario of C2: alice registers with port 40000 from 1.2.3.4, bob
    with port 50000 from 5.6.7.8, alice asks for bob. *)
Lemma connect_notifies_both_witness :
  let s := srv (run [Accept 1%nat "1.2.3.4";
                     Deliver 1%nat (Parsed (register_request (JStr "alice") (JInt 40000)));
                     Accept 2%nat "5.6.7.8";
                     Deliver 2%nat (Parsed (register_request (JStr "bob") (JInt 50000)))]
                    initial_system) in
  (REGISTRY s !! HStr "alice" = Some (mkRegistration 1%nat "1.2.3.4" (JInt 40000))
   /\ REGISTRY s !! HStr "bob" = Some (mkRegistration 2%nat "5.6.7.8" (JInt 50000))
   /\ (1%nat ∉ closed s) /\ (2%nat ∉ closed s))
  /\ handle_msg 1%nat "1.2.3.4" (JStr "alice")
       (JObj [("action", JStr "connect"); ("target", JStr "bob")]) s
     = (Next, JStr "alice",
        mkServer (REGISTRY s) (closed s)
          (sent s ++
           [(1%nat, JObj [("action", JStr "peer"); ("peer_username", JStr "bob");
                          ("peer_ip", JStr "5.6.7.8"); ("peer_port", JInt 50000)]);
            (2%nat, JObj [("action", JStr "peer"); ("peer_username", JStr "alice");
                          ("peer_ip", JStr "1.2.3.4"); ("peer_port", JInt 40000)])])).
Proof.
  cbv zeta.
  set (s := srv (run _ initial_system)).
  assert (Ha : REGISTRY s !! HStr "alice" = Some (mkRegistration 1%nat "1.2.3.4" (JInt 40000)))
    by (by vm_compute).
  assert (Hb : REGISTRY s !! HStr "bob" = Some (mkRegistration 2%nat "5.6.7.8" (JInt 50000)))
    by (by vm_compute).
  assert (H1 : 1%nat ∉ closed s) by (apply (bool_decide_unpack _); by vm_compute).
  assert (H2 : 2%nat ∉ closed s) by (apply (bool_decide_unpack _); by vm_compute).
  split; [done|].
  exact (proj1 (connect_notifies_both 1%nat "1.2.3.4" (JStr "alice") (JStr "bob")
                  (HStr "alice") (HStr "bob") _ _
                  [("action", JStr "connect"); ("target", JStr "bob")] s
                  eq_refl eq_refl eq_refl eq_refl eq_refl eq_refl Ha Hb eq_refl H1 H2)).
Defined.

(** ** Registration *)

Lemma register_branch (c : conn) (ip : string) (username0 : json)
    (fields : list (string * json)) (s : server) :
  dict_get "action" fields = JStr "register" ->
  handle_msg c ip username0 (JObj fields) s
  = let username := dict_get "username" fields in
    let udp_port := dict_get "udp_port" fields in
    if negb (truthy username) || negb (isinstance_int udp_port) then
      (Next, username, send_json c (error_record "missing_fields") s)
    else
      match py_key username with
      | None => (Raised TypeError, username, s)
      | Some k =>
          (Next, username,
           send_json c (registered_record username) (register_locked k c ip udp_port s))
      end.
Proof. intros Ha. unfold handle_msg. by rewrite Ha. Qed.

Lemma omap_key_absent {A : Type} (k : hashable) (l : list (hashable * A)) :
  k ∉ l.*1 ->
  omap (fun entry => if decide (fst entry = k) then Some (snd entry) else None) l = [].
Proof.
  induction l as [|[k' v] l IH]; [done|].
  intros Hk. apply not_elem_of_cons in Hk as [Hne Hk]. simpl in *.
  rewrite decide_False by congruence. auto.
Qed.

Lemma omap_key_present {A : Type} (k : hashable) (r : A) (l : list (hashable * A)) :
  NoDup l.*1 -> (k, r) ∈ l ->
  omap (fun entry => if decide (fst entry = k) then Some (snd entry) else None) l = [r].
Proof.
  induction l as [|[k' v] l IH]; intros Hnd Hin.
  - by apply elem_of_nil in Hin.
  - apply NoDup_cons in Hnd as [Hfresh Hnd]. simpl in *.
    apply elem_of_cons in Hin as [Heq|Hin].
    + injection Heq as Hk Hr. subst k' v. rewrite decide_True by done.
      f_equal. by apply omap_key_absent.
    + rewrite decide_False.
      * by apply IH.
      * intros ->. apply Hfresh. apply list_elem_of_fmap. by exists (k, r).
Qed.

(** The list of Registrations of an identity is what the lookup gives. *)
Lemma registrations_of_lookup (k : hashable) (s : server) :
  registrations_of k s = match REGISTRY s !! k with Some r => [r] | None => [] end.
Proof.
  unfold registrations_of. destruct (REGISTRY s !! k) as [r|] eqn:Hr.
  - apply omap_key_present; [apply NoDup_fst_map_to_list|].
    by apply elem_of_map_to_list.
  - apply omap_key_absent. intros Hin.
    apply list_elem_of_fmap in Hin as [[k' v] [-> Hin]].
    apply elem_of_map_to_list in Hin. simpl in *. congruence.
Qed.

(** C3: in the state that any schedule leads to, every identity has at
    most one Registration; a valid register request then leaves exactly the
    new Registration under its identity and touches no other identity, and
    when an entry was there its connection is closed while the entry is
    still the old one, before the new one is stored. *)
Theorem register_supersedes (ops : list op) (sys : system) (c : conn) (ip : string)
    (username0 username udp_port : json) (k : hashable) (fields : list (string * json)) :
  dict_get "action" fields = JStr "register" ->
  dict_get "username" fields = username ->
  dict_get "udp_port" fields = udp_port ->
  truthy username = true -> isinstance_int udp_port = true ->
  py_key username = Some k ->
  let s := srv (run ops sys) in
  let new := mkRegistration c ip udp_port in
  let mid := close_previous k s in
  (forall k', (length (registrations_of k' s) <= 1)%nat)
  /\ exists s' : server,
       handle_msg c ip username0 (JObj fields) s = (Next, username, s')
       /\ s' = send_json c (registered_record username) (store_registration k new mid)
       /\ registrations_of k s' = [new]
       /\ (forall k', k' <> k -> registrations_of k' s' = registrations_of k' s)
       /\ (forall old, REGISTRY s !! k = Some old ->
             REGISTRY mid !! k = Some old
             /\ reg_conn old ∈ closed mid
             /\ reg_conn old ∈ closed s').
Proof.
  intros Ha Hu Hp Ht Hi Hk s new mid.
  split.
  { intros k'. rewrite registrations_of_lookup. destruct (REGISTRY s !! k'); simpl; lia. }
  exists (send_json c (registered_record username) (store_registration k new mid)).
  split.
  { rewrite (register_branch _ _ _ _ _ Ha), Hu, Hp. cbv zeta.
    by rewrite Ht, Hi, Hk. }
  split; [done|].
  assert (HR : REGISTRY (send_json c (registered_record username)
                           (store_registration k new mid))
               = <[k := new]> (REGISTRY s)).
  { rewrite REGISTRY_send_json. subst mid. unfold store_registration, close_previous.
    by destruct (REGISTRY s !! k). }
  split.
  { by rewrite registrations_of_lookup, HR, lookup_insert_eq. }
  split.
  { intros k' Hne. rewrite !registrations_of_lookup, HR.
    by rewrite lookup_insert_ne by congruence. }
  intros old Hold. subst mid. unfold close_previous. rewrite Hold.
  split; [done|]. split.
  - simpl. set_solver.
  - rewrite closed_send_json. simpl. set_solver.
Qed.

(** alice registers on connection 1 and then on connection 2. *)
Lemma register_supersedes_witness :
  let s := srv (run [Accept 1%nat "1.2.3.4";
                     Deliver 1%nat (Parsed (register_request (JStr "alice") (JInt 40000)))]
                    initial_system) in
  (truthy (JStr "alice") = true /\ isinstance_int (JInt 50000) = true)
  /\ exists s' : server,
       handle_msg 2%nat "5.6.7.8" JNull (register_request (JStr "alice") (JInt 50000)) s
       = (Next, JStr "alice", s')
       /\ registrations_of (HStr "alice") s' = [mkRegistration 2%nat "5.6.7.8" (JInt 50000)]
       /\ 1%nat ∈ closed s'.
Proof.
  cbv zeta. split; [done|].
  destruct (register_supersedes
              [Accept 1%nat "1.2.3.4";
               Deliver 1%nat (Parsed (register_request (JStr "alice") (JInt 40000)))]
              initial_system 2%nat "5.6.7.8" JNull (JStr "alice") (JInt 50000)
              (HStr "alice")
              [("action", JStr "register"); ("username", JStr "alice");
               ("udp_port", JInt 50000)]
              eq_refl eq_refl eq_refl eq_refl eq_refl eq_refl)
    as [_ [s' (Hrun & _ & Hregs & _ & Hold)]].
  exists s'. split; [exact Hrun|]. split; [exact Hregs|].
  exact (proj2 (proj2 (Hold (mkRegistration 1%nat "1.2.3.4" (JInt 40000)) eq_refl))).
Defined.

(** ** Requests that cannot be paired *)

Lemma connect_notify_no_requester (c : conn) (username target : json)
    (other : option Registration) (s : server) :
  exists (f : flow) (extra : list (conn * json)),
    connect_notify c username target (None, other) s
    = (f, mkServer (REGISTRY s) (closed s) (sent s ++ extra))
    /\ Forall (fun m => is_peer_notification (snd m) = false) extra.
Proof.
  unfold connect_notify. destruct other as [o|].
  - exists (Raised TypeError), []. by rewrite app_nil_r, server_eta.
  - unfold send_json. case_decide.
    + exists Next, []. by rewrite app_nil_r, server_eta.
    + exists Next, [(c, error_record "target_not_online")]. split; [done|].
      by repeat constructor.
Qed.

(** The path that answers [not_registered]: a connect request on a
    connection whose handler holds no username gets that error and nothing
    else; and whenever the Registry has no entry under the handler's
    username, no peer record is sent to anyone and the Registry stays as it
    is. *)
Theorem connect_unregistered (c : conn) (ip : string) (username : json)
    (fields : list (string * json)) (s : server) :
  dict_get "action" fields = JStr "connect" ->
  (truthy username = false ->
   handle_msg c ip username (JObj fields) s
   = (Next, username, send_json c (error_record "not_registered") s))
  /\ ((forall ku, py_key username = Some ku -> REGISTRY s !! ku = None) ->
      exists (f : flow) (extra : list (conn * json)),
        handle_msg c ip username (JObj fields) s
        = (f, username, mkServer (REGISTRY s) (closed s) (sent s ++ extra))
        /\ Forall (fun m => is_peer_notification (snd m) = false) extra).
Proof.
  intros Ha. rewrite (connect_branch _ _ _ _ _ Ha). split.
  - by intros ->.
  - intros Habsent.
    assert (Herr : forall reason,
              exists (f : flow) (extra : list (conn * json)),
                (Next, username, send_json c (error_record reason) s)
                = (f, username, mkServer (REGISTRY s) (closed s) (sent s ++ extra))
                /\ Forall (fun m => is_peer_notification (snd m) = false) extra).
    { intros reason. unfold send_json. case_decide.
      - exists Next, []. by rewrite app_nil_r, server_eta.
      - exists Next, [(c, error_record reason)]. split; [done|]. by repeat constructor. }
    assert (Hraise : exists (f : flow) (extra : list (conn * json)),
                (Raised TypeError, username, s)
                = (f, username, mkServer (REGISTRY s) (closed s) (sent s ++ extra))
                /\ Forall (fun m => is_peer_notification (snd m) = false) extra).
    { exists (Raised TypeError), []. by rewrite app_nil_r, server_eta. }
    destruct (truthy username); cbn [negb]; [|apply Herr].
    destruct (truthy (dict_get "target" fields)); cbn [negb]; [|apply Herr].
    destruct (py_key username) as [ku|] eqn:Hku; [|exact Hraise].
    destruct (py_key (dict_get "target" fields)) as [kt|]; [|exact Hraise].
    unfold pair_snapshot. rewrite (Habsent ku eq_refl).
    destruct (connect_notify_no_requester c username (dict_get "target" fields)
                (REGISTRY s !! kt) s) as (f & extra & -> & Hextra).
    by exists f, extra.
Qed.

(** A connection that never sent a register request asks for bob. *)
Lemma connect_unregistered_witness :
  dict_get "action" [("action", JStr "connect"); ("target", JStr "bob")] = JStr "connect"
  /\ truthy JNull = false
  /\ handle_msg 1%nat "1.2.3.4" JNull (connect_request (JStr "bob")) initial_server
     = (Next, JNull, send_json 1%nat (error_record "not_registered") initial_server).
Proof.
  split; [reflexivity|]. split; [reflexivity|].
  exact (proj1 (connect_unregistered 1%nat "1.2.3.4" JNull
                  [("action", JStr "connect"); ("target", JStr "bob")]
                  initial_server eq_refl) eq_refl).
Defined.

(** C4 at three schedules in which the requester has no live Registration.
    First and second: a register request without a port is refused, yet it
    leaves "ghost" in the handler; the connect request that follows is
    answered with [target_not_online] when bob is absent, and when bob is
    registered it raises on [me["ip"]], so that the handler ends without
    any answer.  Third: alice's registration on connection 1 has been
    replaced by the one on connection 3; the connect request that
    connection 1 still handles sends two peer records, to connection 3 and
    to bob.  In none of them is [not_registered] sent. *)
Theorem connect_without_live_registration :
  (let sys := run [Accept 1%nat "1.2.3.4";
                   Deliver 1%nat (Parsed (register_request (JStr "ghost") JNull))]
                  initial_system in
   let after := step sys (Deliver 1%nat (Parsed (connect_request (JStr "bob")))) in
   REGISTRY (srv sys) = ∅
   /\ handlers sys !! 1%nat = Some ("1.2.3.4", JStr "ghost")
   /\ sent (srv sys) = [(1%nat, error_record "missing_fields")]
   /\ sent (srv after)
      = [(1%nat, error_record "missing_fields"); (1%nat, error_record "target_not_online")])
  /\ (let sys := run [Accept 1%nat "1.2.3.4";
                      Deliver 1%nat (Parsed (register_request (JStr "ghost") JNull));
                      Accept 2%nat "5.6.7.8";
                      Deliver 2%nat (Parsed (register_request (JStr "bob") (JInt 50000)))]
                     initial_system in
      let after := step sys (Deliver 1%nat (Parsed (connect_request (JStr "bob")))) in
      REGISTRY (srv sys) !! HStr "ghost" = None
      /\ handle_msg 1%nat "1.2.3.4" (JStr "ghost") (connect_request (JStr "bob")) (srv sys)
         = (Raised TypeError, JStr "ghost", srv sys)
      /\ sent (srv after) = sent (srv sys)
      /\ handlers after !! 1%nat = None)
  /\ (let sys := run [Accept 1%nat "1.2.3.4";
                      Deliver 1%nat (Parsed (register_request (JStr "alice") (JInt 40000)));
                      Accept 2%nat "5.6.7.8";
                      Deliver 2%nat (Parsed (register_request (JStr "bob") (JInt 50000)));
                      Accept 3%nat "9.9.9.9";
                      Deliver 3%nat (Parsed (register_request (JStr "alice") (JInt 60000)))]
                     initial_system in
      let after := step sys (Deliver 1%nat (Parsed (connect_request (JStr "bob")))) in
      REGISTRY (srv sys) !! HStr "alice" = Some (mkRegistration 3%nat "9.9.9.9" (JInt 60000))
      /\ elements (closed (srv sys)) = [1%nat]
      /\ handlers sys !! 1%nat = Some ("1.2.3.4", JStr "alice")
      /\ sent (srv after)
         = sent (srv sys)
           ++ [(3%nat, peer_record (JStr "bob") "5.6.7.8" (JInt 50000));
               (2%nat, peer_record (JStr "alice") "9.9.9.9" (JInt 60000))]).
Proof. cbv zeta. repeat split; by vm_compute. Qed.



(** ** Validation of register requests *)

(** A register request without a usable username, or with a port that is
    no instance of [int], is answered with [missing_fields]; the Registry
    and the closed sockets stay as they are. *)
Lemma register_missing_fields (c : conn) (ip : string) (username0 : json)
    (fields : list (string * json)) (s : server) :
  dict_get "action" fields = JStr "register" ->
  truthy (dict_get "username" fields) = false
  \/ isinstance_int (dict_get "udp_port" fields) = false ->
  handle_msg c ip username0 (JObj fields) s
  = (Next, dict_get "username" fields, send_json c (error_record "missing_fields") s).
Proof.
  intros Ha Hbad. rewrite (register_branch _ _ _ _ _ Ha). cbv zeta.
  destruct Hbad as [-> | ->]; [done|]. by rewrite orb_true_r.
Qed.

(** C9 at the input [{"action":"register","username":"alice","udp_port":true}]:
    the port is a JSON boolean, yet the request is accepted, the boolean is
    stored as the port and the answer is [registered]. *)
Theorem register_accepts_boolean_port :
  handle_msg 1%nat "1.2.3.4" JNull
    (JObj [("action", JStr "register"); ("username", JStr "alice");
           ("udp_port", JBool true)])
    initial_server
  = (Next, JStr "alice",
     mkServer {[ HStr "alice" := mkRegistration 1%nat "1.2.3.4" (JBool true) ]} ∅
       [(1%nat, JObj [("action", JStr "registered"); ("username", JStr "alice")])]).
Proof. by vm_compute. Qed.

Lemma sent_handler_exit (c : conn) (username : json) (s : server) :
  sent (handler_exit c username s) = sent s.
Proof.
  unfold handler_exit, handle_disconnect.
  destruct (truthy username); [|done].
  destruct (py_key username) as [k|]; [|done].
  by destruct (REGISTRY s !! k).
Qed.

(** C10: a register request always puts its username field (or [None]
    when the field is missing) into the handler's local variable, also when
    the request is refused with [missing_fields]; from then on the handler
    leaves the loop as that username, so that its cleanup removes the entry
    of that username. *)
Theorem register_sets_tracked_username (sys : system) (c : conn) (ip : string)
    (username0 : json) (fields : list (string * json)) :
  handlers sys !! c = Some (ip, username0) ->
  dict_get "action" fields = JStr "register" ->
  let username := dict_get "username" fields in
  let sys' := step sys (Deliver c (Parsed (JObj fields))) in
  snd (fst (handle_msg c ip username0 (JObj fields) (srv sys))) = username
  /\ (truthy username = false \/ isinstance_int (dict_get "udp_port" fields) = false ->
      srv sys' = send_json c (error_record "missing_fields") (srv sys)
      /\ handlers sys' !! c = Some (ip, username)
      /\ srv (step sys' (Hangup c)) = handler_exit c username (srv sys')).
Proof.
  intros Hh Ha username sys'. split.
  - rewrite (register_branch _ _ _ _ _ Ha). cbv zeta. fold username.
    destruct (negb (truthy username) || negb (isinstance_int (dict_get "udp_port" fields)));
      [done|].
    by destruct (py_key username).
  - intros Hbad.
    assert (Hstep : sys' = mkSystem (send_json c (error_record "missing_fields") (srv sys))
                             (<[c := (ip, username)]> (handlers sys))).
    { subst sys'. unfold step. rewrite Hh. unfold handle_record.
      by rewrite (register_missing_fields _ _ _ _ _ Ha Hbad). }
    rewrite Hstep. cbn [srv handlers].
    split; [done|]. split; [apply lookup_insert_eq|].
    unfold step. cbn [srv handlers]. by rewrite lookup_insert_eq.
Qed.

(** The scenario of C10: connection 1 is registered as alice, connection 2
    as bob; connection 1 then sends a register request for "bob" without a
    port.  The request is refused, the handler of connection 1 now holds
    "bob", and when it leaves, bob's entry is removed and alice's stays. *)
Lemma register_sets_tracked_username_witness :
  let sys := run [Accept 1%nat "1.2.3.4";
                  Deliver 1%nat (Parsed (register_request (JStr "alice") (JInt 40000)));
                  Accept 2%nat "5.6.7.8";
                  Deliver 2%nat (Parsed (register_request (JStr "bob") (JInt 50000)))]
                 initial_system in
  let refused := [("action", JStr "register"); ("username", JStr "bob")] in
  let sys' := step sys (Deliver 1%nat (Parsed (JObj refused))) in
  (handlers sys !! 1%nat = Some ("1.2.3.4", JStr "alice")
   /\ isinstance_int (dict_get "udp_port" refused) = false)
  /\ handlers sys' !! 1%nat = Some ("1.2.3.4", JStr "bob")
  /\ srv (step sys' (Hangup 1%nat)) = handler_exit 1%nat (JStr "bob") (srv sys')
  /\ REGISTRY (handler_exit 1%nat (JStr "bob") (srv sys')) !! HStr "bob" = None
  /\ REGISTRY (handler_exit 1%nat (JStr "bob") (srv sys')) !! HStr "alice"
     = Some (mkRegistration 1%nat "1.2.3.4" (JInt 40000)).
Proof.
  cbv zeta.
  set (sys := run _ initial_system).
  assert (Hh : handlers sys !! 1%nat = Some ("1.2.3.4", JStr "alice")) by (by vm_compute).
  split; [done|].
  destruct (proj2 (register_sets_tracked_username sys 1%nat "1.2.3.4" (JStr "alice")
                     [("action", JStr "register"); ("username", JStr "bob")]
                     Hh eq_refl) (or_intror eq_refl)) as (_ & Htracked & Hexit).
  split; [exact Htracked|]. split; [exact Hexit|].
  split; by vm_compute.
Defined.

(** ** Lines that cannot be decoded *)

Lemma split_newline_length (buf line rest : list byte) :
  split_newline buf = Some (line, rest) ->
  length buf = S (length line + length rest).
Proof.
  revert line. induction buf as [|b buf IH]; intros line Hs; [done|].
  simpl in Hs. destruct (is_newline b).
  - injection Hs as <- <-. done.
  - destruct (split_newline buf) as [[l r]|]; [|done].
    injection Hs as <- <-. simpl. by rewrite (IH l eq_refl).
Qed.

(** The inner loop does not depend on the number of rounds it is allowed,
    once that number reaches the length of the buffer. *)
Lemma process_lines_fuel (json_loads : list byte -> decoded) (c : conn) (ip : string)
    (n m : nat) (username : json) (buf : list byte) (s : server) :
  (length buf <= n)%nat -> (length buf <= m)%nat ->
  process_lines json_loads n c ip username buf s
  = process_lines json_loads m c ip username buf s.
Proof.
  revert m username buf s. induction n as [|n IH]; intros m username buf s Hn Hm.
  - destruct buf; [|simpl in Hn; lia]. by destruct m.
  - destruct m as [|m].
    + destruct buf; [|simpl in Hm; lia]. done.
    + simpl. destruct (split_newline buf) as [[line rest]|] eqn:Hs; [|done].
      apply split_newline_length in Hs.
      destruct (forallb is_space line); [apply IH; lia|].
      destruct (handle_record c ip username (decode_line json_loads line) s)
        as [[[|e] username'] s']; [apply IH; lia|done].
Qed.

(** One round of the inner loop, for a buffer that holds a full line. *)
Lemma process_buffer_line (json_loads : list byte -> decoded) (c : conn) (ip : string)
    (username : json) (buf line rest : list byte) (s : server) :
  split_newline buf = Some (line, rest) ->
  process_buffer json_loads c ip username buf s
  = if forallb is_space line then process_buffer json_loads c ip username rest s
    else
      match handle_record c ip username (decode_line json_loads line) s with
      | (Next, username', s') => process_buffer json_loads c ip username' rest s'
      | (Raised e, username', s') => (Raised e, username', rest, s')
      end.
Proof.
  intros Hs. unfold process_buffer.
  pose proof (split_newline_length _ _ _ Hs) as Hlen. rewrite Hlen.
  simpl. rewrite Hs.
  destruct (forallb is_space line); [apply process_lines_fuel; lia|].
  destruct (handle_record c ip username (decode_line json_loads line) s)
    as [[[|e] username'] s']; [apply process_lines_fuel; lia|done].
Qed.

(** The inner loop stops only when no full line is left. *)
Lemma process_lines_drains (json_loads : list byte -> decoded) (c : conn) (ip : string)
    (n : nat) (username username' : json) (buf buf' : list byte) (s s' : server) :
  (length buf <= n)%nat ->
  process_lines json_loads n c ip username buf s = (Next, username', buf', s') ->
  split_newline buf' = None.
Proof.
  revert username buf s. induction n as [|n IH]; intros username buf s Hn Hrun.
  - destruct buf; [|simpl in Hn; lia]. simpl in Hrun. by injection Hrun as _ <- _.
  - simpl in Hrun. destruct (split_newline buf) as [[line rest]|] eqn:Hs.
    + apply split_newline_length in Hs.
      destruct (forallb is_space line); [eapply IH; [|exact Hrun]; lia|].
      destruct (handle_record c ip username (decode_line json_loads line) s)
        as [[[|e] u1] s1]; [eapply IH; [|exact Hrun]; lia|done].
    + injection Hrun as _ <- _. done.
Qed.

Lemma process_buffer_drains (json_loads : list byte -> decoded) (c : conn) (ip : string)
    (username username' : json) (buf buf' : list byte) (s s' : server) :
  process_buffer json_loads c ip username buf s = (Next, username', buf', s') ->
  split_newline buf' = None.
Proof. unfold process_buffer. by apply process_lines_drains. Qed.

(** A chunk without newline is kept in the buffer until the rest of the
    line arrives. *)
Lemma partial_read_is_buffered (json_loads : list byte -> decoded) (c : conn)
    (ip : string) (username : json) (buf chunk : list byte) (s : server) :
  chunk <> [] ->
  split_newline (buf ++ chunk) = None ->
  handle_recv json_loads c ip (RecvData chunk) username buf s
  = (Running, username, buf ++ chunk, s).
Proof.
  intros Hne Hs. unfold handle_recv. destruct chunk as [|b chunk]; [done|].
  unfold process_buffer. destruct (length (buf ++ b :: chunk)); simpl; [done|].
  by rewrite Hs.
Qed.

(** A line of well-formed text on which [json.loads] raises
    [json.JSONDecodeError]: exactly one [bad_json] record goes to the
    connection, the handler keeps its username, the Registry is untouched,
    and the loop goes on with the rest of the buffer. *)
Lemma bad_json_line (json_loads : list byte -> decoded) (c : conn) (ip : string)
    (username : json) (buf line rest : list byte) (s : server) :
  split_newline buf = Some (line, rest) ->
  forallb is_space line = false ->
  utf8_valid line = true ->
  json_loads line = JSONDecodeError ->
  process_buffer json_loads c ip username buf s
  = process_buffer json_loads c ip username rest (send_json c (error_record "bad_json") s)
  /\ REGISTRY (send_json c (error_record "bad_json") s) = REGISTRY s.
Proof.
  intros Hs Hblank Hutf Hloads. split; [|apply REGISTRY_send_json].
  rewrite (process_buffer_line _ _ _ _ _ _ _ _ Hs), Hblank.
  unfold decode_line. by rewrite Hutf, Hloads.
Qed.

(** C6 at the input line [b"\xff"]: the line is no JSON text, yet no
    [bad_json] record is sent; [line.decode()] raises, the handler leaves
    its loop and runs its cleanup, whatever [json.loads] would do. *)
Theorem invalid_utf8_line_ends_handler (json_loads : list byte -> decoded) (c : conn)
    (ip : string) (username : json) (s : server) :
  handle_recv json_loads c ip (RecvData [xff; x0a]) username [] s
  = (Finished, username, [], handler_exit c username s)
  /\ sent (handler_exit c username s) = sent s.
Proof. split; [reflexivity|apply sent_handler_exit]. Qed.

(** After alice has registered on connection 1, that line removes her
    entry and closes her connection. *)
Lemma invalid_utf8_line_unregisters :
  let s := srv (run [Accept 1%nat "1.2.3.4";
                     Deliver 1%nat (Parsed (register_request (JStr "alice") (JInt 40000)))]
                    initial_system) in
  let '(st, _, _, s') :=
    handle_recv (fun _ => JSONDecodeError) 1%nat "1.2.3.4" (RecvData [xff; x0a]) (JStr "alice") [] s in
  st = Finished
  /\ REGISTRY s !! HStr "alice" = Some (mkRegistration 1%nat "1.2.3.4" (JInt 40000))
  /\ REGISTRY s' !! HStr "alice" = None
  /\ sent s' = sent s
  /\ elements (closed s') = [1%nat].
Proof. by vm_compute. Qed.

(** ** The client's receive loop *)

(** Bytes on which [json.loads] raises [json.JSONDecodeError] are shown
    and dropped, and the loop goes on. *)
Lemma udp_round_non_json (loads_lossy : list byte -> decoded) (data : list byte)
    (addr : address) :
  loads_lossy data = JSONDecodeError ->
  udp_receiver_round loads_lossy (UdpData data addr)
  = (Continue, [ShowNonJson addr (take 60 data)]).
Proof. intros H. unfold udp_receiver_round. by rewrite H. Qed.

(** A JSON object of any shape keeps the loop running. *)
Lemma udp_round_object (loads_lossy : list byte -> decoded) (data : list byte)
    (addr : address) (fields : list (string * json)) :
  loads_lossy data = Parsed (JObj fields) ->
  fst (udp_receiver_round loads_lossy (UdpData data addr)) = Continue.
Proof.
  intros H. unfold udp_receiver_round, classify. rewrite H.
  destruct (str_eq (dict_get "type" fields) "chat"); [done|].
  by destruct (str_eq (dict_get "type" fields) "hello").
Qed.

(** A JSON value that is no object ends the loop: [msg.get] raises
    [AttributeError], which nothing in [udp_receiver] catches. *)
Lemma classify_non_object (addr : address) (msg : json) :
  (forall fields, msg <> JObj fields) ->
  classify addr msg = (Uncaught AttributeError, []).
Proof. intros H. destruct msg; try done. by destruct (H fields). Qed.

(** C5 at the datagram [b"[]"]: valid JSON, but a list.  The receive loop
    ends with an uncaught [AttributeError], shows nothing, and the datagram
    that arrives next is never read; received alone, that one is shown and
    the loop goes on. *)
Theorem udp_receiver_ends_on_json_array :
  let loads := loads_table [([x5b; x5d], JArr []); ([x7b; x7d], JObj [])] in
  udp_receiver loads [UdpData [x5b; x5d] ("9.9.9.9", 4242);
                      UdpData [x7b; x7d] ("5.6.7.8", 50000)]
  = (Uncaught AttributeError, [], [UdpData [x7b; x7d] ("5.6.7.8", 50000)])
  /\ udp_receiver loads [UdpData [x7b; x7d] ("5.6.7.8", 50000)]
     = (Continue, [ShowUnknown ("5.6.7.8", 50000) (JObj [])], []).
Proof. by vm_compute. Qed.

(** ** The probe burst *)

Lemma probes_punch (view : nat -> PeerClient) :
  probes (punch view)
  = map (fun i => (hello_probe (self_username (view i)) i, peer_ip (view i),
                   peer_port (view i)))
        (seq 0 PUNCH_COUNT).
Proof. reflexivity. Qed.




(** * Further properties of the server *)

(** ** What the Registry and the wire can hold *)

Lemma truthy_key (username : json) (k : hashable) :
  truthy username = true -> py_key username = Some k ->
  k <> HNone /\ k <> HInt 0 /\ k <> HStr "".
Proof.
  destruct username as [|b|z|str| |]; simpl; intros Ht [= <-]; try done.
  - by destruct b.
  - destruct (Z.eqb_spec z 0); [done|]. repeat split; congruence.
  - destruct (String.eqb_spec str ""); [done|]. repeat split; congruence.
Qed.

Lemma server_ok_send_json (c : conn) (obj : json) (s : server) :
  wire_ok obj -> server_ok s -> server_ok (send_json c obj s).
Proof.
  intros Hobj [HR Hw]. unfold send_json. case_decide; [done|].
  split; [done|]. simpl. apply Forall_app. split; [done|]. by constructor.
Qed.

Lemma wire_ok_error (reason : string) : wire_ok (error_record reason).
Proof. left. by exists reason. Qed.

Lemma server_ok_register_locked (k : hashable) (c : conn) (ip : string) (username udp_port : json)
    (s : server) :
  truthy username = true -> py_key username = Some k ->
  isinstance_int udp_port = true ->
  server_ok s -> server_ok (register_locked k c ip udp_port s).
Proof.
  intros Ht Hk Hi [HR Hw].
  assert (Hsent : sent (register_locked k c ip udp_port s) = sent s).
  { unfold register_locked, store_registration, close_previous.
    by destruct (REGISTRY s !! k). }
  assert (Hreg : REGISTRY (register_locked k c ip udp_port s)
                 = <[k := mkRegistration c ip udp_port]> (REGISTRY s)).
  { unfold register_locked, store_registration, close_previous.
    by destruct (REGISTRY s !! k). }
  split; [|by rewrite Hsent].
  rewrite Hreg. intros k' r Hl.
  destruct (decide (k = k')) as [<-|Hne].
  - rewrite lookup_insert_eq in Hl. injection Hl as <-.
    destruct (truthy_key _ _ Ht Hk) as (? & ? & ?). done.
  - rewrite lookup_insert_ne in Hl by done. by apply (HR k' r).
Qed.

Lemma server_ok_connect_notify (c : conn) (username target : json) (ku kt : hashable)
    (s : server) :
  server_ok s ->
  server_ok (snd (connect_notify c username target (pair_snapshot (REGISTRY s) ku kt) s)).
Proof.
  intros Hok. unfold pair_snapshot, connect_notify.
  destruct (REGISTRY s !! ku) as [me|] eqn:Hme;
    destruct (REGISTRY s !! kt) as [other|] eqn:Hother; simpl;
    try (by apply server_ok_send_json; [apply wire_ok_error|]); [|done].
  destruct Hok as [HR Hw].
  destruct (HR _ _ Hme) as (_ & _ & _ & Hpme).
  destruct (HR _ _ Hother) as (_ & _ & _ & Hpother).
  apply server_ok_send_json; [right; right; eauto|].
  apply server_ok_send_json; [right; right; eauto|]. done.
Qed.

Lemma server_ok_handle_msg (c : conn) (ip : string) (username msg : json) (s : server) :
  server_ok s -> server_ok (snd (handle_msg c ip username msg s)).
Proof.
  intros Hok. unfold handle_msg. destruct msg; try done.
  destruct (str_eq (dict_get "action" fields) "register").
  { destruct (truthy (dict_get "username" fields)) eqn:Ht; cbn [negb orb];
      [|by apply server_ok_send_json; [apply wire_ok_error|]].
    destruct (isinstance_int (dict_get "udp_port" fields)) eqn:Hi; cbn [negb orb];
      [|by apply server_ok_send_json; [apply wire_ok_error|]].
    destruct (py_key (dict_get "username" fields)) as [k|] eqn:Hk; cbn [snd]; [|done].
    apply server_ok_send_json; [right; left; eauto|].
    by eapply server_ok_register_locked. }
  destruct (str_eq (dict_get "action" fields) "connect");
    [|by apply server_ok_send_json; [apply wire_ok_error|]].
  destruct (truthy username); cbn [negb];
    [|by apply server_ok_send_json; [apply wire_ok_error|]].
  destruct (truthy (dict_get "target" fields)); cbn [negb];
    [|by apply server_ok_send_json; [apply wire_ok_error|]].
  destruct (py_key username) as [ku|]; [|done].
  destruct (py_key (dict_get "target" fields)) as [kt|]; [|done].
  pose proof (server_ok_connect_notify c username (dict_get "target" fields) ku kt s Hok)
    as Hn.
  by destruct (connect_notify c username (dict_get "target" fields)
                 (pair_snapshot (REGISTRY s) ku kt) s).
Qed.

Lemma server_ok_handle_record (c : conn) (ip : string) (username : json) (d : decoded)
    (s : server) :
  server_ok s -> server_ok (snd (handle_record c ip username d s)).
Proof.
  intros Hok. destruct d; simpl;
    [by apply server_ok_handle_msg|by apply server_ok_send_json; [apply wire_ok_error|]|done].
Qed.

Lemma server_ok_handler_exit (c : conn) (username : json) (s : server) :
  server_ok s -> server_ok (handler_exit c username s).
Proof.
  intros [HR Hw]. unfold handler_exit, handle_disconnect.
  destruct (truthy username); [|done].
  destruct (py_key username) as [k|]; [|done].
  destruct (REGISTRY s !! k) as [old|] eqn:Hk; [|done].
  split; [|done]. simpl. intros k' r Hl.
  apply lookup_delete_Some in Hl as [_ Hl]. by apply (HR k' r).
Qed.

Lemma server_ok_step (sys : system) (o : op) :
  server_ok (srv sys) -> server_ok (srv (step sys o)).
Proof.
  intros Hok. destruct o as [c ip|c d|c]; simpl; [done| |].
  - destruct (handlers sys !! c) as [[ip username]|]; [|done].
    pose proof (server_ok_handle_record c ip username d (srv sys) Hok) as He.
    destruct (handle_record c ip username d (srv sys)) as [[[|e] u'] s']; simpl in *;
      [done|by apply server_ok_handler_exit].
  - destruct (handlers sys !! c) as [[ip username]|]; simpl;
      [by apply server_ok_handler_exit|done].
Qed.

Lemma server_ok_run (ops : list op) (sys : system) :
  server_ok (srv sys) -> server_ok (srv (run ops sys)).
Proof.
  revert sys. induction ops as [|o ops IH]; intros sys Hok; [done|].
  simpl. apply IH. by apply server_ok_step.
Qed.

Lemma server_ok_initial : server_ok initial_server.
Proof. split; [intros k r Hl; simpl in Hl; by rewrite lookup_empty in Hl|constructor]. Qed.

(** From the empty server, whatever the schedule: the Registry never holds
    an entry under [None], [0], [False] or the empty string, and every
    stored port is an instance of [int]. *)
Theorem registry_always_ok (ops : list op) :
  registry_ok (REGISTRY (srv (run ops initial_system))).
Proof. apply (server_ok_run ops initial_system), server_ok_initial. Qed.

(** From the empty server, whatever the schedule: every record on the wire
    is an error record, a registered record, or a peer record whose port is
    an instance of [int]. *)
Theorem wire_always_ok (ops : list op) (c : conn) (m : json) :
  (c, m) ∈ sent (srv (run ops initial_system)) -> wire_ok m.
Proof.
  intros Hin.
  destruct (server_ok_run ops initial_system server_ok_initial) as [_ Hw].
  rewrite Forall_forall in Hw. exact (Hw (c, m) Hin).
Qed.

Lemma wire_always_ok_witness :
  (1%nat, error_record "bad_json")
    ∈ sent (srv (run [Accept 1%nat "1.2.3.4"; Deliver 1%nat JSONDecodeError] initial_system))
  /\ wire_ok (error_record "bad_json").
Proof.
  assert (Hin : (1%nat, error_record "bad_json")
                  ∈ sent (srv (run [Accept 1%nat "1.2.3.4"; Deliver 1%nat JSONDecodeError]
                                 initial_system)))
    by (vm_compute; apply list_elem_of_here).
  split; [exact Hin|].
  exact (wire_always_ok [Accept 1%nat "1.2.3.4"; Deliver 1%nat JSONDecodeError] 1%nat
           (error_record "bad_json") Hin).
Defined.

(** ** Registration and cleanup together *)

(** Removing an identity twice is the same as removing it once. *)
Theorem handle_disconnect_idempotent (username : json) (s : server) :
  handle_disconnect username (handle_disconnect username s) = handle_disconnect username s.
Proof.
  unfold handle_disconnect at 2 3.
  destruct (py_key username) as [k|] eqn:Hk; [|unfold handle_disconnect; by rewrite Hk].
  destruct (REGISTRY s !! k) as [r|] eqn:Hr.
  - unfold handle_disconnect. rewrite Hk. simpl. by rewrite lookup_delete_eq.
  - unfold handle_disconnect. by rewrite Hk, Hr.
Qed.

Lemma register_accepted (c : conn) (ip : string) (username0 : json) (k : hashable)
    (fields : list (string * json)) (s : server) :
  dict_get "action" fields = JStr "register" ->
  truthy (dict_get "username" fields) = true ->
  isinstance_int (dict_get "udp_port" fields) = true ->
  py_key (dict_get "username" fields) = Some k ->
  handle_msg c ip username0 (JObj fields) s
  = (Next, dict_get "username" fields,
     send_json c (registered_record (dict_get "username" fields))
       (register_locked k c ip (dict_get "udp_port" fields) s)).
Proof.
  intros Ha Ht Hi Hk. rewrite (register_branch _ _ _ _ _ Ha). cbv zeta.
  by rewrite Ht, Hi, Hk.
Qed.

Lemma REGISTRY_register_locked (k : hashable) (c : conn) (ip : string) (udp_port : json)
    (s : server) :
  REGISTRY (register_locked k c ip udp_port s)
  = <[k := mkRegistration c ip udp_port]> (REGISTRY s).
Proof.
  unfold register_locked, store_registration, close_previous.
  by destruct (REGISTRY s !! k).
Qed.

Lemma closed_register_locked (k : hashable) (c : conn) (ip : string) (udp_port : json)
    (s : server) :
  closed (register_locked k c ip udp_port s)
  = match REGISTRY s !! k with
    | Some old => {[reg_conn old]} ∪ closed s
    | None => closed s
    end.
Proof.
  unfold register_locked, store_registration, close_previous.
  by destruct (REGISTRY s !! k).
Qed.

Lemma sent_register_locked (k : hashable) (c : conn) (ip : string) (udp_port : json)
    (s : server) :
  sent (register_locked k c ip udp_port s) = sent s.
Proof.
  unfold register_locked, store_registration, close_previous.
  by destruct (REGISTRY s !! k).
Qed.

(** An accepted register request followed by the exit of the same handler
    leaves the Registry without the identity and otherwise as it was before
    the request, and the handler's connection closed. *)
Theorem register_then_exit (c : conn) (ip : string) (username0 : json) (k : hashable)
    (fields : list (string * json)) (s : server) :
  dict_get "action" fields = JStr "register" ->
  truthy (dict_get "username" fields) = true ->
  isinstance_int (dict_get "udp_port" fields) = true ->
  py_key (dict_get "username" fields) = Some k ->
  let '(_, username, s1) := handle_msg c ip username0 (JObj fields) s in
  REGISTRY (handler_exit c username s1) = delete k (REGISTRY s)
  /\ c ∈ closed (handler_exit c username s1).
Proof.
  intros Ha Ht Hi Hk. rewrite (register_accepted _ _ _ _ _ _ Ha Ht Hi Hk).
  unfold handler_exit. rewrite Ht.
  set (s1 := send_json c _ _).
  assert (Hl : REGISTRY s1 !! k = Some (mkRegistration c ip (dict_get "udp_port" fields))).
  { subst s1. by rewrite REGISTRY_send_json, REGISTRY_register_locked, lookup_insert_eq. }
  rewrite (handle_disconnect_present _ _ _ _ Hk Hl). simpl. split; [|set_solver].
  subst s1. by rewrite REGISTRY_send_json, REGISTRY_register_locked, delete_insert_eq.
Qed.

Lemma register_then_exit_witness :
  let fields := [("action", JStr "register"); ("username", JStr "alice");
                 ("udp_port", JInt 40000)] in
  (truthy (dict_get "username" fields) = true
   /\ isinstance_int (dict_get "udp_port" fields) = true)
  /\ let '(_, username, s1) := handle_msg 1%nat "1.2.3.4" JNull (JObj fields) initial_server in
     REGISTRY (handler_exit 1%nat username s1) = delete (HStr "alice") ∅
     /\ 1%nat ∈ closed (handler_exit 1%nat username s1).
Proof.
  cbv zeta. split; [done|].
  exact (register_then_exit 1%nat "1.2.3.4" JNull (HStr "alice")
           [("action", JStr "register"); ("username", JStr "alice");
            ("udp_port", JInt 40000)] initial_server eq_refl eq_refl eq_refl eq_refl).
Defined.

(** A register request under the identity that the same connection already
    holds closes that very connection: the new entry points at a closed
    socket and the [registered] answer never reaches the wire. *)
Theorem register_again_closes_own_connection (c : conn) (ip : string) (username0 : json)
    (k : hashable) (old : Registration) (fields : list (string * json)) (s : server) :
  dict_get "action" fields = JStr "register" ->
  truthy (dict_get "username" fields) = true ->
  isinstance_int (dict_get "udp_port" fields) = true ->
  py_key (dict_get "username" fields) = Some k ->
  REGISTRY s !! k = Some old -> reg_conn old = c ->
  let '(f, _, s') := handle_msg c ip username0 (JObj fields) s in
  f = Next
  /\ sent s' = sent s
  /\ c ∈ closed s'
  /\ REGISTRY s' !! k = Some (mkRegistration c ip (dict_get "udp_port" fields)).
Proof.
  intros Ha Ht Hi Hk Hold Hc. rewrite (register_accepted _ _ _ _ _ _ Ha Ht Hi Hk).
  assert (Hcl : c ∈ closed (register_locked k c ip (dict_get "udp_port" fields) s)).
  { rewrite closed_register_locked, Hold, Hc. set_solver. }
  rewrite (send_json_closed _ _ _ Hcl).
  split; [done|]. split; [apply sent_register_locked|]. split; [done|].
  by rewrite REGISTRY_register_locked, lookup_insert_eq.
Qed.

Lemma register_again_closes_own_connection_witness :
  let s := srv (run [Accept 1%nat "1.2.3.4";
                     Deliver 1%nat (Parsed (register_request (JStr "alice") (JInt 40000)))]
                    initial_system) in
  let fields := [("action", JStr "register"); ("username", JStr "alice");
                 ("udp_port", JInt 40001)] in
  REGISTRY s !! HStr "alice" = Some (mkRegistration 1%nat "1.2.3.4" (JInt 40000))
  /\ let '(f, _, s') := handle_msg 1%nat "1.2.3.4" (JStr "alice") (JObj fields) s in
     f = Next
     /\ sent s' = sent s
     /\ 1%nat ∈ closed s'
     /\ REGISTRY s' !! HStr "alice" = Some (mkRegistration 1%nat "1.2.3.4" (JInt 40001)).
Proof.
  cbv zeta.
  set (s := srv (run _ initial_system)).
  assert (Hold : REGISTRY s !! HStr "alice"
                 = Some (mkRegistration 1%nat "1.2.3.4" (JInt 40000))) by (by vm_compute).
  split; [exact Hold|].
  exact (register_again_closes_own_connection 1%nat "1.2.3.4" (JStr "alice") (HStr "alice")
           _ [("action", JStr "register"); ("username", JStr "alice");
              ("udp_port", JInt 40001)] s eq_refl eq_refl eq_refl eq_refl Hold eq_refl).
Defined.

(** A register request without usable username, followed by the exit of
    the handler, leaves the whole Registry as it was, whatever the
    connection had registered before: the handler has forgotten its
    identity, its entry stays behind, the one socket that gets closed is
    its own, and the one record that may be written is the
    [missing_fields] answer. *)
Theorem forgotten_identity_leaves_entry (sys : system) (c : conn) (ip : string)
    (username0 : json) (fields : list (string * json)) :
  handlers sys !! c = Some (ip, username0) ->
  dict_get "action" fields = JStr "register" ->
  truthy (dict_get "username" fields) = false ->
  let sys' := step (step sys (Deliver c (Parsed (JObj fields)))) (Hangup c) in
  REGISTRY (srv sys') = REGISTRY (srv sys)
  /\ c ∈ closed (srv sys')
  /\ handlers sys' !! c = None
  /\ closed (srv sys') = {[c]} ∪ closed (srv sys)
  /\ (sent (srv sys') = sent (srv sys)
      \/ sent (srv sys') = sent (srv sys) ++ [(c, error_record "missing_fields")]).
Proof.
  intros Hh Ha Ht. cbv zeta.
  assert (Hstep : step sys (Deliver c (Parsed (JObj fields)))
                  = mkSystem (send_json c (error_record "missing_fields") (srv sys))
                      (<[c := (ip, dict_get "username" fields)]> (handlers sys))).
  { unfold step. rewrite Hh. unfold handle_record.
    by rewrite (register_missing_fields _ _ _ _ _ Ha (or_introl Ht)). }
  rewrite Hstep. unfold step. cbn [srv handlers]. rewrite lookup_insert_eq.
  cbn [srv handlers]. unfold handler_exit. rewrite Ht.
  split; [simpl; apply REGISTRY_send_json|]. split; [simpl; set_solver|].
  split; [apply lookup_delete_eq|].
  split; [simpl; by rewrite closed_send_json|].
  simpl. apply sent_send_json.
Qed.

Lemma forgotten_identity_leaves_entry_witness :
  let sys := run [Accept 1%nat "1.2.3.4";
                  Deliver 1%nat (Parsed (register_request (JStr "alice") (JInt 40000)))]
                 initial_system in
  let fields := [("action", JStr "register"); ("udp_port", JInt 40000)] in
  let sys' := step (step sys (Deliver 1%nat (Parsed (JObj fields)))) (Hangup 1%nat) in
  (handlers sys !! 1%nat = Some ("1.2.3.4", JStr "alice")
   /\ truthy (dict_get "username" fields) = false)
  /\ REGISTRY (srv sys') = REGISTRY (srv sys)
  /\ 1%nat ∈ closed (srv sys')
  /\ handlers sys' !! 1%nat = None
  /\ closed (srv sys') = {[1%nat]} ∪ closed (srv sys)
  /\ (sent (srv sys') = sent (srv sys)
      \/ sent (srv sys') = sent (srv sys) ++ [(1%nat, error_record "missing_fields")]).
Proof.
  cbv zeta.
  set (sys := run _ initial_system).
  assert (Hh : handlers sys !! 1%nat = Some ("1.2.3.4", JStr "alice")) by (by vm_compute).
  split; [done|].
  exact (forgotten_identity_leaves_entry sys 1%nat "1.2.3.4" (JStr "alice")
           [("action", JStr "register"); ("udp_port", JInt 40000)] Hh eq_refl eq_refl).
Defined.

(** ** Pairing at the edges *)

(** When the target's entry points at a socket that the server has closed,
    the requester still gets its peer record and the target gets nothing. *)
Theorem connect_to_closed_target_notifies_requester_only (c : conn) (ip : string)
    (username target : json) (ku kt : hashable) (me other : Registration)
    (fields : list (string * json)) (s : server) :
  dict_get "action" fields = JStr "connect" ->
  dict_get "target" fields = target ->
  truthy username = true -> truthy target = true ->
  py_key username = Some ku -> py_key target = Some kt ->
  REGISTRY s !! ku = Some me -> REGISTRY s !! kt = Some other ->
  reg_conn me = c -> c ∉ closed s -> reg_conn other ∈ closed s ->
  handle_msg c ip username (JObj fields) s
  = (Next, username,
     mkServer (REGISTRY s) (closed s)
       (sent s ++ [(c, peer_record target (reg_ip other) (reg_udp_port other))])).
Proof.
  intros Ha Ht Hu Htt Hku Hkt Hme Hother Hc Hopen Hclosed.
  rewrite (connect_branch _ _ _ _ _ Ha), Ht, Hu, Htt, Hku, Hkt. cbn [negb].
  unfold pair_snapshot, connect_notify. rewrite Hme, Hother, Hc.
  rewrite (send_json_open c) by done.
  by rewrite send_json_closed.
Qed.

Lemma connect_to_closed_target_notifies_requester_only_witness :
  let s := srv (run [Accept 1%nat "1.2.3.4";
                     Deliver 1%nat (Parsed (register_request (JStr "alice") (JInt 40000)));
                     Accept 2%nat "5.6.7.8";
                     Deliver 2%nat (Parsed (register_request (JStr "bob") (JInt 50000)));
                     Deliver 2%nat (Parsed (register_request JNull (JInt 50000)));
                     Hangup 2%nat]
                    initial_system) in
  (REGISTRY s !! HStr "bob" = Some (mkRegistration 2%nat "5.6.7.8" (JInt 50000))
   /\ 2%nat ∈ closed s)
  /\ handle_msg 1%nat "1.2.3.4" (JStr "alice") (connect_request (JStr "bob")) s
     = (Next, JStr "alice",
        mkServer (REGISTRY s) (closed s)
          (sent s ++ [(1%nat, peer_record (JStr "bob") "5.6.7.8" (JInt 50000))])).
Proof.
  cbv zeta.
  set (s := srv (run _ initial_system)).
  assert (Ha : REGISTRY s !! HStr "alice" = Some (mkRegistration 1%nat "1.2.3.4" (JInt 40000)))
    by (by vm_compute).
  assert (Hb : REGISTRY s !! HStr "bob" = Some (mkRegistration 2%nat "5.6.7.8" (JInt 50000)))
    by (by vm_compute).
  assert (H1 : 1%nat ∉ closed s) by (apply (bool_decide_unpack _); by vm_compute).
  assert (H2 : 2%nat ∈ closed s) by (apply (bool_decide_unpack _); by vm_compute).
  split; [done|].
  exact (connect_to_closed_target_notifies_requester_only 1%nat "1.2.3.4" (JStr "alice")
           (JStr "bob") (HStr "alice") (HStr "bob") _ _
           [("action", JStr "connect"); ("target", JStr "bob")] s
           eq_refl eq_refl eq_refl eq_refl eq_refl eq_refl Ha Hb eq_refl H1 H2).
Defined.

(** A connect request of a handler whose username has no Registry entry,
    naming a registered target: [me["ip"]] raises, the handler is gone, and
    the server state is exactly as before: nothing is sent, no socket is
    closed, the Registry is untouched. *)
Theorem connect_without_own_entry_ends_handler (sys : system) (c : conn) (ip : string)
    (username target : json) (ku kt : hashable) (other : Registration)
    (fields : list (string * json)) :
  handlers sys !! c = Some (ip, username) ->
  dict_get "action" fields = JStr "connect" ->
  dict_get "target" fields = target ->
  truthy username = true -> truthy target = true ->
  py_key username = Some ku -> py_key target = Some kt ->
  REGISTRY (srv sys) !! ku = None -> REGISTRY (srv sys) !! kt = Some other ->
  handle_msg c ip username (JObj fields) (srv sys) = (Raised TypeError, username, srv sys)
  /\ step sys (Deliver c (Parsed (JObj fields)))
     = mkSystem (srv sys) (delete c (handlers sys)).
Proof.
  intros Hh Ha Ht Hu Htt Hku Hkt Hme Hother.
  assert (Hmsg : handle_msg c ip username (JObj fields) (srv sys)
                 = (Raised TypeError, username, srv sys)).
  { rewrite (connect_branch _ _ _ _ _ Ha), Ht, Hu, Htt, Hku, Hkt. cbn [negb].
    unfold pair_snapshot, connect_notify. by rewrite Hme, Hother. }
  split; [exact Hmsg|].
  unfold step. rewrite Hh. unfold handle_record. rewrite Hmsg.
  unfold handler_exit. rewrite Hu.
  by rewrite (handle_disconnect_absent _ _ _ Hku Hme).
Qed.

Lemma connect_without_own_entry_ends_handler_witness :
  let sys := run [Accept 1%nat "1.2.3.4";
                  Deliver 1%nat (Parsed (register_request (JStr "ghost") JNull));
                  Accept 2%nat "5.6.7.8";
                  Deliver 2%nat (Parsed (register_request (JStr "bob") (JInt 50000)))]
                 initial_system in
  (handlers sys !! 1%nat = Some ("1.2.3.4", JStr "ghost")
   /\ REGISTRY (srv sys) !! HStr "ghost" = None)
  /\ step sys (Deliver 1%nat (Parsed (connect_request (JStr "bob"))))
     = mkSystem (srv sys) (delete 1%nat (handlers sys)).
Proof.
  cbv zeta.
  set (sys := run _ initial_system).
  assert (Hh : handlers sys !! 1%nat = Some ("1.2.3.4", JStr "ghost")) by (by vm_compute).
  assert (Hg : REGISTRY (srv sys) !! HStr "ghost" = None) by (by vm_compute).
  assert (Hb : REGISTRY (srv sys) !! HStr "bob"
               = Some (mkRegistration 2%nat "5.6.7.8" (JInt 50000))) by (by vm_compute).
  split; [done|].
  exact (proj2 (connect_without_own_entry_ends_handler sys 1%nat "1.2.3.4" (JStr "ghost")
                  (JStr "bob") (HStr "ghost") (HStr "bob") _
                  [("action", JStr "connect"); ("target", JStr "bob")]
                  Hh eq_refl eq_refl eq_refl eq_refl eq_refl eq_refl Hg Hb)).
Defined.

(** ** What one record can do *)

Lemma send_json_delta (c : conn) (obj : json) (s : server) :
  exists extra,
    send_json c obj s = mkServer (REGISTRY s) (closed s) (sent s ++ extra)
    /\ (extra = [] \/ extra = [(c, obj)]).
Proof.
  unfold send_json. case_decide.
  - exists []. by rewrite app_nil_r, server_eta; auto.
  - exists [(c, obj)]. auto.
Qed.

(** Whatever the record and the state: the handler writes at most two
    records; each goes to its own connection or is a peer record; and the
    Registry is left as it is or gets one entry, which points at the
    handler's own connection and carries the address observed for it.  No
    entry is ever removed while the handler runs. *)
Theorem handle_record_footprint (c : conn) (ip : string) (username : json) (d : decoded)
    (s : server) :
  let '(_, _, s') := handle_record c ip username d s in
  (exists extra,
     sent s' = sent s ++ extra
     /\ (length extra <= 2)%nat
     /\ Forall (fun m => fst m = c \/ is_peer_notification (snd m) = true) extra)
  /\ (REGISTRY s' = REGISTRY s
      \/ exists k udp_port, REGISTRY s' = <[k := mkRegistration c ip udp_port]> (REGISTRY s)).
Proof.
  pose (Q := fun s' : server =>
    (exists extra,
       sent s' = sent s ++ extra
       /\ (length extra <= 2)%nat
       /\ Forall (fun m => fst m = c \/ is_peer_notification (snd m) = true) extra)
    /\ (REGISTRY s' = REGISTRY s
        \/ exists k udp_port, REGISTRY s' = <[k := mkRegistration c ip udp_port]> (REGISTRY s))).
  enough (HQ : Q (snd (handle_record c ip username d s)))
    by (destruct (handle_record c ip username d s) as [[? ?] ?]; exact HQ).
  assert (Hsame : Q s).
  { split; [|by left]. exists []. rewrite app_nil_r.
    split; [done|]. split; [simpl; lia|constructor]. }
  assert (Herr : forall obj, Q (send_json c obj s)).
  { intros obj. destruct (send_json_delta c obj s) as (extra & -> & Hextra).
    split; [|by left]. exists extra. split; [done|].
    destruct Hextra as [-> | ->]; simpl; split; try lia;
      repeat (match goal with |- Forall _ _ => constructor end); by left. }
  destruct d as [msg| |e]; [|apply Herr|apply Hsame].
  unfold handle_record, handle_msg. destruct msg as [| | | | |fields]; try apply Hsame.
  destruct (str_eq (dict_get "action" fields) "register").
  { destruct (negb (truthy (dict_get "username" fields))
              || negb (isinstance_int (dict_get "udp_port" fields))); [apply Herr|].
    destruct (py_key (dict_get "username" fields)) as [k|]; [|apply Hsame].
    cbn [snd].
    destruct (send_json_delta c (registered_record (dict_get "username" fields))
                (register_locked k c ip (dict_get "udp_port" fields) s))
      as (extra & -> & Hextra).
    unfold Q. cbn [sent REGISTRY]. rewrite sent_register_locked, REGISTRY_register_locked.
    split; [|right; eauto]. exists extra. split; [done|].
    destruct Hextra as [-> | ->]; simpl; split; try lia;
      repeat (match goal with |- Forall _ _ => constructor end); by left. }
  destruct (str_eq (dict_get "action" fields) "connect"); [|apply Herr].
  destruct (negb (truthy username)); [apply Herr|].
  destruct (negb (truthy (dict_get "target" fields))); [apply Herr|].
  destruct (py_key username) as [ku|]; [|apply Hsame].
  destruct (py_key (dict_get "target" fields)) as [kt|]; [|apply Hsame].
  unfold pair_snapshot, connect_notify.
  destruct (REGISTRY s !! ku) as [me|]; destruct (REGISTRY s !! kt) as [other|];
    cbn [snd]; try apply Herr; [|apply Hsame].
  set (m1 := peer_record (dict_get "target" fields) (reg_ip other) (reg_udp_port other)).
  set (m2 := peer_record username (reg_ip me) (reg_udp_port me)).
  destruct (send_json_delta (reg_conn me) m1 s) as (e1 & -> & He1).
  destruct (send_json_delta (reg_conn other) m2
              (mkServer (REGISTRY s) (closed s) (sent s ++ e1))) as (e2 & -> & He2).
  unfold Q. cbn [sent REGISTRY closed]. split; [|by left].
  exists (e1 ++ e2). split; [by rewrite app_assoc|].
  destruct He1 as [-> | ->], He2 as [-> | ->]; simpl; split; try lia;
    repeat (match goal with |- Forall _ _ => constructor end); by right.
Qed.

(** ** Framing of the stream *)

Lemma split_newline_app_some (buf chunk line rest : list byte) :
  split_newline buf = Some (line, rest) ->
  split_newline (buf ++ chunk) = Some (line, rest ++ chunk).
Proof.
  revert line. induction buf as [|b buf IH]; intros line Hs; [done|].
  simpl in *. destruct (is_newline b).
  - by injection Hs as <- <-.
  - destruct (split_newline buf) as [[l r]|]; [|done].
    injection Hs as <- <-. by rewrite (IH l eq_refl).
Qed.

Lemma split_newline_app_none (buf rest : list byte) (nl : byte) :
  split_newline buf = None -> is_newline nl = true ->
  split_newline (buf ++ nl :: rest) = Some (buf, rest).
Proof.
  intros Hs Hnl. induction buf as [|b buf IH]; simpl in *; [by rewrite Hnl|].
  destruct (is_newline b); [done|].
  destruct (split_newline buf) as [[l r]|]; [done|]. by rewrite IH.
Qed.

Lemma split_newline_inv (buf line rest : list byte) :
  split_newline buf = Some (line, rest) ->
  exists nl, is_newline nl = true /\ buf = line ++ nl :: rest.
Proof.
  revert line. induction buf as [|b buf IH]; intros line Hs; [done|].
  simpl in Hs. destruct (is_newline b) eqn:Hb.
  - injection Hs as <- <-. by exists b.
  - destruct (split_newline buf) as [[l r]|]; [|done].
    injection Hs as <- <-. destruct (IH l eq_refl) as (nl & Hnl & ->). by exists nl.
Qed.

Lemma process_buffer_no_line (json_loads : list byte -> decoded) (c : conn) (ip : string)
    (username : json) (buf : list byte) (s : server) :
  split_newline buf = None ->
  process_buffer json_loads c ip username buf s = (Next, username, buf, s).
Proof.
  intros Hs. unfold process_buffer. destruct (length buf); simpl; [done|]. by rewrite Hs.
Qed.

(** Bytes that arrive later do not change what the inner loop does with
    the lines that are already complete. *)
Lemma process_buffer_app (json_loads : list byte -> decoded) (c : conn) (ip : string)
    (username : json) (buf chunk : list byte) (s : server) :
  process_buffer json_loads c ip username (buf ++ chunk) s
  = match process_buffer json_loads c ip username buf s with
    | (Next, username', buf', s') => process_buffer json_loads c ip username' (buf' ++ chunk) s'
    | (Raised e, username', buf', s') => (Raised e, username', buf' ++ chunk, s')
    end.
Proof.
  remember (length buf) as n eqn:Hn.
  assert (Hle : (length buf <= n)%nat) by lia. clear Hn.
  revert username buf s Hle. induction n as [|n IH]; intros username buf s Hle.
  - destruct buf; [|simpl in Hle; lia].
    by rewrite (process_buffer_no_line _ _ _ _ [] s eq_refl).
  - destruct (split_newline buf) as [[line rest]|] eqn:Hs.
    + pose proof (split_newline_length _ _ _ Hs) as Hlen.
      rewrite (process_buffer_line _ _ _ _ _ _ _ _ (split_newline_app_some _ chunk _ _ Hs)).
      rewrite (process_buffer_line _ _ _ _ _ _ _ _ Hs).
      destruct (forallb is_space line); [apply IH; lia|].
      destruct (handle_record c ip username (decode_line json_loads line) s)
        as [[[|e] username'] s']; [apply IH; lia|done].
    + by rewrite (process_buffer_no_line _ _ _ _ buf s Hs).
Qed.

Lemma handle_recv_data (json_loads : list byte -> decoded) (c : conn) (ip : string)
    (username : json) (buf chunk : list byte) (s : server) :
  chunk <> [] ->
  handle_recv json_loads c ip (RecvData chunk) username buf s
  = match process_buffer json_loads c ip username (buf ++ chunk) s with
    | (Next, username', buf', s') => (Running, username', buf', s')
    | (Raised _, username', buf', s') => (Finished, username', buf', handler_exit c username' s')
    end.
Proof. intros Hne. unfold handle_recv. by destruct chunk. Qed.

(** The handler does not depend on how the stream is cut into reads:
    two reads give the same status, username and server state as the one
    read of their concatenation, and the same buffer while the handler
    runs. *)
Theorem handle_client_chunking (json_loads : list byte -> decoded) (c : conn)
    (ip : string) (username : json) (buf a b : list byte) (s : server) :
  a <> [] -> b <> [] ->
  let '(st1, u1, buf1, s1) :=
    handle_client_from json_loads c ip [RecvData a; RecvData b] username buf s in
  let '(st2, u2, buf2, s2) :=
    handle_client_from json_loads c ip [RecvData (a ++ b)] username buf s in
  st1 = st2 /\ u1 = u2 /\ s1 = s2 /\ (st1 = Running -> buf1 = buf2).
Proof.
  intros Ha Hb.
  assert (Hab : a ++ b <> []) by (destruct a; [done|discriminate]).
  cbn [handle_client_from].
  rewrite (handle_recv_data _ _ _ _ _ (a ++ b) _ Hab).
  rewrite (handle_recv_data _ _ _ _ _ a _ Ha).
  rewrite (app_assoc buf a b), (process_buffer_app _ _ _ _ (buf ++ a) b).
  destruct (process_buffer json_loads c ip username (buf ++ a) s)
    as [[[[|e] u'] buf'] s'].
  - rewrite (handle_recv_data _ _ _ _ _ b _ Hb).
    destruct (process_buffer json_loads c ip u' (buf' ++ b) s')
      as [[[[|e] u''] buf''] s'']; done.
  - done.
Qed.

Lemma handle_client_chunking_witness :
  let loads := loads_table [([x5b; x5d], JArr [])] in
  ([x5b] <> @nil byte /\ [x5d; x0a] <> @nil byte)
  /\ let '(st1, u1, buf1, s1) :=
       handle_client_from loads 1%nat "1.2.3.4" [RecvData [x5b]; RecvData [x5d; x0a]]
         JNull [] initial_server in
     let '(st2, u2, buf2, s2) :=
       handle_client_from loads 1%nat "1.2.3.4" [RecvData ([x5b] ++ [x5d; x0a])]
         JNull [] initial_server in
     st1 = st2 /\ u1 = u2 /\ s1 = s2 /\ (st1 = Running -> buf1 = buf2).
Proof.
  cbv zeta. split; [done|].
  exact (handle_client_chunking (loads_table [([x5b; x5d], JArr [])]) 1%nat "1.2.3.4"
           JNull [] [x5b] [x5d; x0a] initial_server
           ltac:(discriminate) ltac:(discriminate)).
Defined.

(** Lines of white space, however many, are skipped without answer and
    without effect. *)
Theorem blank_lines_are_skipped (json_loads : list byte -> decoded) (c : conn)
    (ip : string) (username : json) (blank rest : list byte) (s : server) :
  forallb is_space blank = true ->
  process_buffer json_loads c ip username (blank ++ x0a :: rest) s
  = process_buffer json_loads c ip username rest s.
Proof.
  remember (length blank) as n eqn:Hn.
  assert (Hle : (length blank <= n)%nat) by lia. clear Hn.
  revert blank Hle. induction n as [|n IH]; intros blank Hle Hblank.
  - destruct blank; [|simpl in Hle; lia]. simpl.
    by rewrite (process_buffer_line _ _ _ _ (x0a :: rest) [] rest s eq_refl).
  - destruct (split_newline blank) as [[line more]|] eqn:Hs.
    + pose proof (split_newline_length _ _ _ Hs) as Hlen.
      destruct (split_newline_inv _ _ _ Hs) as (nl & Hnl & ->).
      rewrite forallb_app in Hblank. apply andb_true_iff in Hblank as [Hline Hmore].
      simpl in Hmore. apply andb_true_iff in Hmore as [_ Hmore].
      rewrite (process_buffer_line _ _ _ _ _ _ _ _
                 (split_newline_app_some _ (x0a :: rest) _ _ Hs)), Hline.
      apply IH; [lia|done].
    + by rewrite (process_buffer_line _ _ _ _ _ _ _ _
                    (split_newline_app_none blank rest x0a Hs eq_refl)), Hblank.
Qed.

Lemma blank_lines_are_skipped_witness :
  forallb is_space [x20; x0d; x0a; x09] = true
  /\ process_buffer (fun _ => JSONDecodeError) 1%nat "1.2.3.4" JNull
       ([x20; x0d; x0a; x09] ++ x0a :: [x7b; x0a]) initial_server
     = process_buffer (fun _ => JSONDecodeError) 1%nat "1.2.3.4" JNull [x7b; x0a] initial_server.
Proof.
  split; [reflexivity|].
  exact (blank_lines_are_skipped (fun _ => JSONDecodeError) 1%nat "1.2.3.4" JNull
           [x20; x0d; x0a; x09] [x7b; x0a] initial_server eq_refl).
Defined.

(** Once a read has been handled and the handler still runs, a timeout of
    [recv] changes nothing: no complete line is ever left in the buffer. *)
Theorem timeout_after_read_changes_nothing (json_loads : list byte -> decoded)
    (c : conn) (ip : string) (r : recv_result) (username username' : json)
    (buf buf' : list byte) (s s' : server) :
  handle_recv json_loads c ip r username buf s = (Running, username', buf', s') ->
  handle_recv json_loads c ip RecvTimeout username' buf' s' = (Running, username', buf', s').
Proof.
  intros Hrun.
  assert (Hdrained : split_newline buf' = None).
  { unfold handle_recv in Hrun.
    destruct r as [[|x chunk]| |]; try done.
    - destruct (process_buffer json_loads c ip username (buf ++ x :: chunk) s)
        as [[[[|e] u1] b1] s1] eqn:Hp; [|done].
      injection Hrun as <- <- <-. by eapply process_buffer_drains.
    - destruct (process_buffer json_loads c ip username buf s)
        as [[[[|e] u1] b1] s1] eqn:Hp; [|done].
      injection Hrun as <- <- <-. by eapply process_buffer_drains. }
  unfold handle_recv. by rewrite (process_buffer_no_line _ _ _ _ _ _ Hdrained).
Qed.

Lemma timeout_after_read_changes_nothing_witness :
  handle_recv (fun _ => JSONDecodeError) 1%nat "1.2.3.4" (RecvData [x7b; x0a; x7b]) JNull []
    initial_server
  = (Running, JNull, [x7b], send_json 1%nat (error_record "bad_json") initial_server)
  /\ handle_recv (fun _ => JSONDecodeError) 1%nat "1.2.3.4" RecvTimeout JNull [x7b]
       (send_json 1%nat (error_record "bad_json") initial_server)
     = (Running, JNull, [x7b], send_json 1%nat (error_record "bad_json") initial_server).
Proof.
  assert (H : handle_recv (fun _ => JSONDecodeError) 1%nat "1.2.3.4" (RecvData [x7b; x0a; x7b]) JNull []
                initial_server
              = (Running, JNull, [x7b],
                 send_json 1%nat (error_record "bad_json") initial_server))
    by reflexivity.
  split; [exact H|].
  exact (timeout_after_read_changes_nothing _ _ _ _ _ _ _ _ _ _ H).
Defined.

(** A line of valid JSON that is no object ends the handler: [msg.get]
    raises, no record is written, and the cleanup runs. *)
Theorem non_object_line_ends_handler (json_loads : list byte -> decoded) (c : conn)
    (ip : string) (username msg : json) (line : list byte) (s : server) :
  split_newline line = None ->
  forallb is_space line = false ->
  utf8_valid line = true ->
  json_loads line = Parsed msg ->
  (forall fields, msg <> JObj fields) ->
  handle_recv json_loads c ip (RecvData (line ++ [x0a])) username [] s
  = (Finished, username, [], handler_exit c username s).
Proof.
  intros Hs Hblank Hutf Hloads Hobj. unfold handle_recv.
  destruct (line ++ [x0a]) as [|x l] eqn:Heq; [by destruct line|]. rewrite <- Heq.
  rewrite app_nil_l.
  rewrite (process_buffer_line _ _ _ _ _ _ _ _
             (split_newline_app_none line [] x0a Hs eq_refl)), Hblank.
  unfold decode_line. rewrite Hutf, Hloads. unfold handle_record, handle_msg.
  destruct msg; try done. by destruct (Hobj fields).
Qed.

Lemma non_object_line_ends_handler_witness :
  let loads := loads_table [([x5b; x5d], JArr [])] in
  (loads [x5b; x5d] = Parsed (JArr []) /\ utf8_valid [x5b; x5d] = true)
  /\ handle_recv loads 1%nat "1.2.3.4" (RecvData ([x5b; x5d] ++ [x0a])) (JStr "alice") []
       initial_server
     = (Finished, JStr "alice", [], handler_exit 1%nat (JStr "alice") initial_server).
Proof.
  cbv zeta. split; [done|].
  exact (non_object_line_ends_handler (loads_table [([x5b; x5d], JArr [])]) 1%nat "1.2.3.4"
           (JStr "alice") (JArr []) [x5b; x5d] initial_server
           eq_refl eq_refl eq_refl eq_refl ltac:(discriminate)).
Defined.

(** * Further properties of the client *)

(** ** The UDP loop *)



(** Every datagram of a probe burst, once decoded on the other side, is
    taken as a hello: nothing is shown and the loop goes on. *)
Theorem probes_are_inert (view : nat -> PeerClient) (addr : address) (payload ip port : json) :
  (payload, ip, port) ∈ probes (punch view) ->
  classify addr payload = (Continue, []).
Proof.
  rewrite probes_punch. intros Hin.
  apply list_elem_of_fmap in Hin as (i & [= -> _ _] & _). reflexivity.
Qed.

Lemma probes_are_inert_witness :
  let view := fun _ : nat => mkPeerClient "alice" (JStr "5.6.7.8") (JInt 50000) (JStr "bob") in
  (hello_probe "alice" 0, JStr "5.6.7.8", JInt 50000) ∈ probes (punch view)
  /\ classify ("1.2.3.4", 40000) (hello_probe "alice" 0) = (Continue, []).
Proof.
  cbv zeta.
  assert (H : (hello_probe "alice" 0, JStr "5.6.7.8", JInt 50000)
                ∈ probes (punch (fun _ : nat =>
                     mkPeerClient "alice" (JStr "5.6.7.8") (JInt 50000) (JStr "bob"))))
    by (vm_compute; apply list_elem_of_here).
  split; [exact H|].
  exact (probes_are_inert _ ("1.2.3.4", 40000) _ _ _ H).
Defined.

(** ** Records of the signaling stream *)

Lemma handle_signal_peer (int_of_str : string -> option Z) (self : PeerClient)
    (fields : list (string * json)) :
  dict_get "action" fields = JStr "peer" ->
  handle_signal int_of_str self (JObj fields)
  = let self1 :=
      mkPeerClient (self_username self) (dict_get "peer_ip" fields) (peer_port self)
        (dict_get "peer_username" fields) in
    match py_int int_of_str (dict_get "peer_port" fields) with
    | inl e => (Raised e, self1, ([], []))
    | inr port =>
        let self2 :=
          mkPeerClient (self_username self) (dict_get "peer_ip" fields) (JInt port)
            (dict_get "peer_username" fields) in
        (Next, self2, start_hole_punch self2)
    end.
Proof. intros Ha. unfold handle_signal. by rewrite Ha. Qed.

(** A peer record whose port [int] refuses ends the reader with that
    exception after the address and the name have been overwritten: the
    client is left with the new address next to the old port. *)
Theorem peer_record_with_bad_port_tears_endpoint (int_of_str : string -> option Z)
    (self : PeerClient) (fields : list (string * json)) (e : exn) :
  dict_get "action" fields = JStr "peer" ->
  py_int int_of_str (dict_get "peer_port" fields) = inl e ->
  handle_signal int_of_str self (JObj fields)
  = (Raised e,
     mkPeerClient (self_username self) (dict_get "peer_ip" fields) (peer_port self)
       (dict_get "peer_username" fields),
     ([], [])).
Proof. intros Ha Hp. rewrite (handle_signal_peer _ _ _ Ha). cbv zeta. by rewrite Hp. Qed.

Lemma peer_record_with_bad_port_tears_endpoint_witness :
  let fields := [("action", JStr "peer"); ("peer_username", JStr "carol");
                 ("peer_ip", JStr "9.9.9.9")] in
  let self := mkPeerClient "alice" (JStr "5.6.7.8") (JInt 50000) (JStr "bob") in
  py_int (fun _ => None) (dict_get "peer_port" fields) = inl TypeError
  /\ handle_signal (fun _ => None) self (JObj fields)
     = (Raised TypeError, mkPeerClient "alice" (JStr "9.9.9.9") (JInt 50000) (JStr "carol"),
        ([], [])).
Proof.
  cbv zeta. split; [reflexivity|].
  exact (peer_record_with_bad_port_tears_endpoint (fun _ => None)
           (mkPeerClient "alice" (JStr "5.6.7.8") (JInt 50000) (JStr "bob"))
           [("action", JStr "peer"); ("peer_username", JStr "carol");
            ("peer_ip", JStr "9.9.9.9")] TypeError eq_refl eq_refl).
Defined.




(** ** Chat messages *)

(** [send_chat] sends exactly when [start_hole_punch] would start a burst
    on the same client; a client that has seen no peer record sends
    nothing. *)
Theorem send_chat_guard (self : PeerClient) (now : Q) (text name : string) :
  (send_chat self now text = ChatNoPeer <-> snd (start_hole_punch self) = [])
  /\ send_chat (new_client name) now text = ChatNoPeer.
Proof.
  split; [|reflexivity].
  unfold send_chat, start_hole_punch.
  destruct (negb (truthy (peer_ip self) && truthy (peer_port self))); simpl; split; done.
Qed.

(** After a peer record that starts a burst, a chat message goes to the
    advertised endpoint, is signed with the client's own name and names
    the advertised peer as recipient. *)
Theorem send_chat_after_peer_record (int_of_str : string -> option Z) (self : PeerClient)
    (fields : list (string * json)) (port : Z) (now : Q) (text : string) :
  dict_get "action" fields = JStr "peer" ->
  truthy (dict_get "peer_ip" fields) = true ->
  py_int int_of_str (dict_get "peer_port" fields) = inr port ->
  port <> 0 ->
  let '(_, self', _) := handle_signal int_of_str self (JObj fields) in
  send_chat self' now text
  = ChatSendTo (mkChat (self_username self) (dict_get "peer_username" fields) now text)
      (dict_get "peer_ip" fields) (JInt port).
Proof.
  intros Ha Hip Hport Hnz. rewrite (handle_signal_peer _ _ _ Ha). cbv zeta.
  rewrite Hport. unfold send_chat. cbn [peer_ip peer_port peer_username self_username].
  rewrite Hip. cbn [truthy andb]. by destruct (Z.eqb_spec port 0).
Qed.

Lemma send_chat_after_peer_record_witness :
  let fields := [("action", JStr "peer"); ("peer_username", JStr "bob");
                 ("peer_ip", JStr "5.6.7.8"); ("peer_port", JInt 50000)] in
  (truthy (dict_get "peer_ip" fields) = true /\ 50000 <> 0)
  /\ let '(_, self', _) := handle_signal (fun _ => None) (new_client "alice") (JObj fields) in
     send_chat self' (3 # 2) "hi"
     = ChatSendTo (mkChat "alice" (JStr "bob") (3 # 2) "hi") (JStr "5.6.7.8") (JInt 50000).
Proof.
  cbv zeta. split; [done|].
  exact (send_chat_after_peer_record (fun _ => None) (new_client "alice")
           [("action", JStr "peer"); ("peer_username", JStr "bob");
            ("peer_ip", JStr "5.6.7.8"); ("peer_port", JInt 50000)]
           50000 (3 # 2) "hi" eq_refl eq_refl eq_refl ltac:(discriminate)).
Defined.

(** ** Client and server together *)






(** ** The reader of the signaling stream *)

Lemma reader_lines_nil (json_loads : list byte -> decoded)
    (int_of_str : string -> option Z) (n : nat) (self : PeerClient) :
  reader_lines json_loads int_of_str n self [] = (Next, self, [], []).
Proof. by destruct n. Qed.

Lemma reader_one_line (json_loads : list byte -> decoded)
    (int_of_str : string -> option Z) (self : PeerClient) (line : list byte) :
  split_newline line = None ->
  forallb is_space line = false ->
  signaling_reader_round json_loads int_of_str (RecvData (line ++ [x0a])) self []
  = match decode_line json_loads line with
    | JSONDecodeError => (Continue, false, self, [], [])
    | DecodeRaised e => (Uncaught e, false, self, [], [])
    | Parsed msg =>
        match handle_signal int_of_str self msg with
        | (Next, self', (_, started)) => (Continue, false, self', [], started)
        | (Raised e, self', (_, started)) => (Uncaught e, false, self', [], started)
        end
    end.
Proof.
  intros Hs Hblank. unfold signaling_reader_round.
  destruct (line ++ [x0a]) as [|x l] eqn:Heq; [by destruct line|]. rewrite <- Heq.
  rewrite app_nil_l, length_app, Nat.add_1_r. cbn [reader_lines].
  rewrite (split_newline_app_none line [] x0a Hs eq_refl), Hblank.
  destruct (decode_line json_loads line) as [msg| |e]; [|by rewrite reader_lines_nil|done].
  destruct (handle_signal int_of_str self msg) as [[[|e] self'] [evs started]]; [|done].
  by rewrite reader_lines_nil, app_nil_r.
Qed.

(** A line of well-formed text on which [json.loads] raises
    [json.JSONDecodeError] is dropped by the client without any trace: the
    client is unchanged, no thread is started, the stop event stays unset
    and the reader goes on. *)
Theorem reader_drops_bad_json (json_loads : list byte -> decoded)
    (int_of_str : string -> option Z) (self : PeerClient) (line : list byte) :
  split_newline line = None ->
  forallb is_space line = false ->
  utf8_valid line = true ->
  json_loads line = JSONDecodeError ->
  signaling_reader_round json_loads int_of_str (RecvData (line ++ [x0a])) self []
  = (Continue, false, self, [], []).
Proof.
  intros Hs Hblank Hutf Hloads. rewrite (reader_one_line _ _ _ _ Hs Hblank).
  unfold decode_line. by rewrite Hutf, Hloads.
Qed.

Lemma reader_drops_bad_json_witness :
  (utf8_valid [x7b] = true /\ forallb is_space [x7b] = false)
  /\ signaling_reader_round (fun _ => JSONDecodeError) (fun _ => None) (RecvData ([x7b] ++ [x0a]))
       (new_client "alice") []
     = (Continue, false, new_client "alice", [], []).
Proof.
  split; [done|].
  exact (reader_drops_bad_json (fun _ => JSONDecodeError) (fun _ => None) (new_client "alice") [x7b]
           eq_refl eq_refl eq_refl eq_refl).
Defined.

(** A line that is not well-formed UTF-8, or that holds a JSON value other
    than an object, or on which [json.loads] raises anything but
    [json.JSONDecodeError], ends the reader thread with an exception that
    nothing catches; the stop event is not set, so the rest of the client
    keeps running without its signaling stream. *)
Theorem reader_dies_without_stop (json_loads : list byte -> decoded)
    (int_of_str : string -> option Z) (self : PeerClient) (line : list byte) :
  split_newline line = None ->
  forallb is_space line = false ->
  (utf8_valid line = false ->
   signaling_reader_round json_loads int_of_str (RecvData (line ++ [x0a])) self []
   = (Uncaught UnicodeDecodeError, false, self, [], []))
  /\ (forall msg,
        utf8_valid line = true -> json_loads line = Parsed msg ->
        (forall fields, msg <> JObj fields) ->
        signaling_reader_round json_loads int_of_str (RecvData (line ++ [x0a])) self []
        = (Uncaught AttributeError, false, self, [], []))
  /\ (forall e,
        utf8_valid line = true -> json_loads line = DecodeRaised e ->
        signaling_reader_round json_loads int_of_str (RecvData (line ++ [x0a])) self []
        = (Uncaught e, false, self, [], [])).
Proof.
  intros Hs Hblank. rewrite (reader_one_line _ _ _ _ Hs Hblank). unfold decode_line.
  split; [|split].
  - by intros ->.
  - intros msg -> -> Hobj. destruct msg; try done. by destruct (Hobj fields).
  - by intros e -> ->.
Qed.

Lemma reader_dies_without_stop_witness :
  (split_newline [xff] = None /\ forallb is_space [xff] = false /\ utf8_valid [xff] = false)
  /\ signaling_reader_round (fun _ => JSONDecodeError) (fun _ => None)
       (RecvData ([xff] ++ [x0a])) (new_client "alice") []
     = (Uncaught UnicodeDecodeError, false, new_client "alice", [], []).
Proof.
  split; [done|].
  exact (proj1 (reader_dies_without_stop (fun _ => JSONDecodeError) (fun _ => None)
                  (new_client "alice") [xff] eq_refl eq_refl) eq_refl).
Defined.



(** Only a peer record can change the client or start a thread: whatever
    the record, the reading thread itself sends and sleeps nothing, the
    client keeps its own name, at most the burst thread is started, and for
    a record whose action is not ["peer"] the client is unchanged and no
    thread is started. *)
Theorem handle_signal_footprint (int_of_str : string -> option Z) (self : PeerClient)
    (msg : json) :
  let '(_, self', (evs, started)) := handle_signal int_of_str self msg in
  evs = []
  /\ self_username self' = self_username self
  /\ (started = [] \/ started = [PunchThread])
  /\ ((forall fields, msg = JObj fields -> str_eq (dict_get "action" fields) "peer" = false) ->
      self' = self /\ started = []).
Proof.
  unfold handle_signal. destruct msg as [| | | | |fields]; try by auto.
  destruct (str_eq (dict_get "action" fields) "registered"); [by auto|].
  destruct (str_eq (dict_get "action" fields) "error"); [by auto|].
  destruct (str_eq (dict_get "action" fields) "peer") eqn:Hpeer; [|by auto].
  destruct (py_int int_of_str (dict_get "peer_port" fields)) as [e|port].
  - split; [done|]. split; [done|]. split; [by left|].
    intros Hnp. specialize (Hnp fields eq_refl). congruence.
  - unfold start_hole_punch.
    destruct (negb _); (split; [done|]); (split; [done|]); (split; [by auto|]);
      intros Hnp; specialize (Hnp fields eq_refl); congruence.
Qed.

(** The line [{] followed by a connect request that cannot be decoded
    either: each gets its own [bad_json] answer. *)
Lemma bad_json_line_witness :
  (split_newline [x7b; x0a; x5d; x0a] = Some ([x7b], [x5d; x0a])
   /\ forallb is_space [x7b] = false /\ utf8_valid [x7b] = true)
  /\ process_buffer (fun _ => JSONDecodeError) 1%nat "1.2.3.4" JNull [x7b; x0a; x5d; x0a] initial_server
     = process_buffer (fun _ => JSONDecodeError) 1%nat "1.2.3.4" JNull [x5d; x0a]
         (send_json 1%nat (error_record "bad_json") initial_server).
Proof.
  split; [done|].
  exact (proj1 (bad_json_line (fun _ => JSONDecodeError) 1%nat "1.2.3.4" JNull [x7b; x0a; x5d; x0a]
                  [x7b] [x5d; x0a] initial_server eq_refl eq_refl eq_refl eq_refl)).
Defined.


(** ** Exceptions of [json.loads] other than [json.JSONDecodeError] *)

(** On the server such a line gets no [bad_json]: the exception reaches
    [except Exception], the handler leaves its loop and runs its cleanup. *)
Lemma loads_exception_ends_handler (json_loads : list byte -> decoded) (c : conn)
    (ip : string) (username : json) (line : list byte) (e : exn) (s : server) :
  split_newline line = None ->
  forallb is_space line = false ->
  utf8_valid line = true ->
  json_loads line = DecodeRaised e ->
  handle_recv json_loads c ip (RecvData (line ++ [x0a])) username [] s
  = (Finished, username, [], handler_exit c username s).
Proof.
  intros Hs Hblank Hutf Hloads. unfold handle_recv.
  destruct (line ++ [x0a]) as [|x l] eqn:Heq; [by destruct line|]. rewrite <- Heq.
  rewrite app_nil_l.
  rewrite (process_buffer_line _ _ _ _ _ _ _ _
             (split_newline_app_none line [] x0a Hs eq_refl)), Hblank.
  unfold decode_line. by rewrite Hutf, Hloads.
Qed.

(** On the client's UDP socket such a datagram ends the receive loop. *)
Lemma udp_round_loads_exception (loads_lossy : list byte -> decoded) (data : list byte)
    (addr : address) (e : exn) (rest : list udp_recv) :
  loads_lossy data = DecodeRaised e ->
  udp_receiver loads_lossy (UdpData data addr :: rest) = (Uncaught e, [], rest).
Proof. intros H. simpl. by rewrite H. Qed.
